(** * Indian Customs Duty RAG assistant: a shallow embedding of the script

    The program is one Streamlit script.  Every user interaction re-runs it
    from top to bottom; two functions are memoised for the whole process
    ([load_all_documents] by [st.cache_data], [get_vectorstore] by
    [st.cache_resource]) and [st.session_state] survives between re-runs of
    one session.

    Modelling choices:
    - a Python [str] is the list of its Unicode code points;
    - the third-party libraries (document loaders, text splitter, Chroma,
      the chat model) are the fields of the class [Library]: each call is a
      function of its arguments that returns a value or raises;
    - the script is written in a state-and-exception monad over the process
      state [Proc]: the filesystem (set of existing paths), the two caches,
      the session state, the log of library calls and the rendered elements;
    - an exception ([exn]) stands for an instance of a subclass of Python's
      [Exception]. *)

From Stdlib Require Import ZArith NArith QArith List String Ascii Lia.
From Stdlib Require DecimalString.
From stdpp Require Import gmap strings list fin_maps.

Import ListNotations.
Local Open Scope N_scope.
Local Open Scope list_scope.

(** ** Strings *)

(** A Python [str]: its code points. *)
Abbreviation str := (list N).

(** An ASCII literal of the source as a [str]. *)
Definition py (s : string) : str :=
  List.map N_of_ascii (list_ascii_of_string s).

(** The double quote character, and the line feed. *)
Definition dq : str := [34].
Definition nl : str := [10].

(** [str(n)] for a non-negative [int]. *)
Definition str_of_nat (n : nat) : str :=
  py (DecimalString.NilZero.string_of_uint (Nat.to_uint n)).

(** [sep.join(parts)]. *)
Fixpoint join (sep : str) (parts : list str) : str :=
  match parts with
  | [] => []
  | [p] => p
  | p :: ps => p ++ sep ++ join sep ps
  end.

(** [str.isspace] on one code point (CPython's [_PyUnicode_IsWhitespace]). *)
Definition isspace (c : N) : bool :=
  ((9 <=? c) && (c <=? 13)) || ((28 <=? c) && (c <=? 32))
  || (c =? 0x85) || (c =? 0xA0) || (c =? 0x1680)
  || ((0x2000 <=? c) && (c <=? 0x200A))
  || (c =? 0x2028) || (c =? 0x2029) || (c =? 0x202F)
  || (c =? 0x205F) || (c =? 0x3000).

Fixpoint lstrip (s : str) : str :=
  match s with
  | [] => []
  | c :: s' => if isspace c then lstrip s' else s
  end.

Definition rstrip (s : str) : str := rev (lstrip (rev s)).

(** [s.strip()] with no argument: leading and trailing whitespace removed. *)
Definition strip (s : str) : str := rstrip (lstrip s).

(** [needle in hay]. *)
Definition contains (needle hay : str) : Prop :=
  exists pre post : str, hay = pre ++ needle ++ post.

(** ** Data *)

(** A LangChain [Document]. *)
Record Document := mkDocument {
  page_content : str;
  metadata : list (str * str)
}.

(** The message a chat model answers with. *)
Record AIMessage := mkAIMessage { content : str }.

(** [ChatGoogleGenerativeAI(model=..., temperature=...)]. *)
Record ChatModel := mkChatModel {
  llm_model : str;
  temperature : Q
}.

(** [GoogleGenerativeAIEmbeddings(model=...)]. *)
Record Embeddings := mkEmbeddings { embedding_model : str }.

(** A raised exception: its class name and [str(e)]. *)
Record exn := mkExn {
  exn_class : str;
  exn_str : str
}.

Inductive result (A : Type) : Type :=
| Ok (a : A)
| Raise (e : exn).
Arguments Ok {A} a.
Arguments Raise {A} e.

Definition result_map {A B} (f : A -> B) (r : result A) : result B :=
  match r with
  | Ok a => Ok (f a)
  | Raise e => Raise e
  end.

Definition is_Ok {A} (r : result A) : bool :=
  match r with Ok _ => true | Raise _ => false end.

(** What the user did before this re-run of the script: the text in the
    input box and whether the button was clicked. *)
Record Interaction := mkInteraction {
  user_query : str;
  ask_clicked : bool
}.

(** ** The libraries the script calls *)

Class Library := {
  (** a Chroma vector store *)
  VectorStore : Type;
  (** [os.getenv("GOOGLE_API_KEY")] after [load_dotenv("my.env")] *)
  getenv_GOOGLE_API_KEY : option str;
  (** what constructing [GoogleGenerativeAIEmbeddings(model=m)] does besides
      returning the object: its validation raises when the client cannot be
      configured, as with no API key *)
  embeddings_init : str -> result unit;
  (** [PyPDFLoader(path).load()] *)
  pdf_load : str -> result (list Document);
  (** [CSVLoader(path, encoding=enc).load()] *)
  csv_load : str -> str -> result (list Document);
  (** [WebBaseLoader(url).load()] *)
  web_load : str -> result (list Document);
  (** [RecursiveCharacterTextSplitter(chunk_size, chunk_overlap)
        .split_documents(docs)] *)
  split_documents : nat -> nat -> list Document -> list Document;
  (** [Chroma(embedding_function=e, persist_directory=d)] *)
  chroma_open : Embeddings -> str -> result VectorStore;
  (** [Chroma.from_documents(chunks, embedding=e, persist_directory=d)]:
      embeds every chunk *)
  chroma_from_documents :
    list Document -> Embeddings -> str -> result VectorStore;
  (** what [Chroma.from_documents(.., persist_directory=d)] leaves on disk
      when it returns, and when it raises *)
  chroma_build_fs : str -> gset str -> gset str;
  chroma_failed_build_fs : str -> gset str -> gset str;
  (** [db.persist()] and what it leaves on disk *)
  chroma_persist : VectorStore -> result unit;
  chroma_persist_fs : VectorStore -> gset str -> gset str;
  (** [db.as_retriever(search_kwargs={"k": k}).invoke(query)] *)
  retrieve : VectorStore -> nat -> str -> result (list Document);
  (** [llm.invoke(prompt)] *)
  llm_invoke : ChatModel -> str -> result AIMessage
}.

(** A call into a library, as logged. *)
Inductive Call `{Library} :=
| CallPdfLoad (path : str)
| CallCsvLoad (path encoding : str)
| CallWebLoad (url : str)
| CallSplit (chunk_size chunk_overlap : nat) (docs : list Document)
| CallChromaOpen (e : Embeddings) (persist_directory : str)
| CallFromDocuments (chunks : list Document) (e : Embeddings)
    (persist_directory : str)
| CallPersist (db : VectorStore)
| CallRetrieve (db : VectorStore) (k : nat) (query : str)
| CallLLM (llm : ChatModel) (prompt : str).

(** An element the script renders. *)
Inductive Element :=
| ElPageConfig (page_title layout page_icon : str)
| ElError (body : str)
| ElWarning (body : str)
| ElInfo (body : str)
| ElWrite (body : str)
| ElMarkdown (body : str) (unsafe_allow_html : bool)
| ElTextInput (label placeholder : str)
| ElButton (label : str)
| ElSpinner (text : str).

(** ** A small concrete library

    A deployment to evaluate the script on: one PDF that parses to two
    pages unless it is [broken.pdf], a CSV of one row, one web page that
    loads and one that times out, a splitter that leaves short documents
    whole and a store that is the list of its chunks. *)
Module Demo.

Definition page1 : Document :=
  mkDocument (py "Laptops (HSN 8471) attract nil basic customs duty.")
    [(py "source", py "pdf_c_3_merged.pdf"); (py "page", py "0")].

Definition page2 : Document :=
  mkDocument (py "IGST of 18% is charged on the assessable value.")
    [(py "source", py "pdf_c_3_merged.pdf"); (py "page", py "1")].

Definition row1 : Document :=
  mkDocument (py "item: laptop" ++ nl ++ py "duty: 0")
    [(py "source", py "customs_duty_table.csv"); (py "row", py "0")].

Definition web1 : Document :=
  mkDocument (py "Customs duty in India is levied on imports.")
    [(py "source", py "https://cleartax.in/s/customs-duty-india")].

Definition the_pdf_load (path : str) : result (list Document) :=
  if bool_decide (path = py "broken.pdf")
  then Raise (mkExn (py "PdfReadError") (py "EOF marker not found"))
  else Ok [page1; page2].

Definition the_csv_load (path encoding : str) : result (list Document) :=
  Ok [row1].

Definition the_web_load (url : str) : result (list Document) :=
  if bool_decide (url = py "https://cleartax.in/s/customs-duty-india")
  then Ok [web1]
  else Raise (mkExn (py "ConnectionError") (py "timed out")).

Definition the_retrieve (db : list Document) (k : nat) (query : str)
  : result (list Document) :=
  if bool_decide (query = py "weather") then Ok [] else Ok (take k db).

Definition reply : AIMessage :=
  mkAIMessage (py "| Item | BCD | IGST |").

Definition lib : Library := {|
  VectorStore := list Document;
  getenv_GOOGLE_API_KEY := Some (py "secret");
  embeddings_init := fun _ => Ok tt;
  pdf_load := the_pdf_load;
  csv_load := the_csv_load;
  web_load := the_web_load;
  split_documents := fun _ _ docs => docs;
  chroma_open := fun _ _ => Ok [page1];
  chroma_from_documents := fun chunks _ _ => Ok chunks;
  chroma_build_fs := fun d f => {[d]} ∪ f;
  chroma_failed_build_fs := fun d f => {[d]} ∪ f;
  chroma_persist := fun _ => Ok tt;
  chroma_persist_fs := fun _ f => f;
  retrieve := the_retrieve;
  llm_invoke := fun _ _ => Ok reply
|}.

End Demo.

(** The configuration in the source. *)
Module Config.
Definition PDF_FILES : list str := [py "pdf_c_3_merged.pdf"].
Definition CSV_FILES : list str := [py "customs_duty_table.csv"].
Definition URLS : list str :=
  [ py "https://www.india-briefing.com/doing-business-guide/india/taxation-and-accounting/customs-duty-and-import-export-taxes-in-india";
    py "https://cleartax.in/s/customs-duty-india" ].
Definition DB_DIR : str := py "rag_db".
End Config.

(** Inputs and disks to run the script on. *)

Module Session.

Definition laptop : Interaction := mkInteraction (py "laptop duty") true.
Definition idle : Interaction := mkInteraction [] false.

(** A disk that already holds the index directory. *)
Definition indexed : gset str := {[ Config.DB_DIR ]}.

(** A disk with the CSV only. *)
Definition csv_only : gset str := {[ py "customs_duty_table.csv" ]}.

Definition india_briefing : str :=
  py "https://www.india-briefing.com/doing-business-guide/india/taxation-and-accounting/customs-duty-and-import-export-taxes-in-india".

End Session.

(** A deployment in which the services are down: the API key is not set and
    the embeddings client refuses to be constructed without it, the vector
    store cannot be opened or built (a failed build leaves the directory it
    created), the retrieval of one query times out and the chat model is out
    of quota. *)
Module Outage.

Definition unreachable : exn :=
  mkExn (py "ConnectionError") (py "embedding service unreachable").

Definition timed_out : exn := mkExn (py "TimeoutError") (py "timed out").

Definition quota : exn :=
  mkExn (py "ResourceExhausted") (py "429 quota exceeded").

Definition no_key : exn :=
  mkExn (py "ValidationError") (py "API key required").

Definition the_retrieve (db : list Document) (k : nat) (query : str)
  : result (list Document) :=
  if bool_decide (query = py "slow") then Raise timed_out else Ok (take k db).

Definition lib : Library := {|
  VectorStore := list Document;
  getenv_GOOGLE_API_KEY := None;
  embeddings_init := fun _ => Raise no_key;
  pdf_load := Demo.the_pdf_load;
  csv_load := Demo.the_csv_load;
  web_load := Demo.the_web_load;
  split_documents := fun _ _ docs => docs;
  chroma_open := fun _ _ => Raise unreachable;
  chroma_from_documents := fun _ _ _ => Raise unreachable;
  chroma_build_fs := fun d f => {[d]} ∪ f;
  chroma_failed_build_fs := fun d f => {[d]} ∪ f;
  chroma_persist := fun _ => Ok tt;
  chroma_persist_fs := fun _ f => f;
  retrieve := the_retrieve;
  llm_invoke := fun _ _ => Raise quota
|}.

End Outage.

(** ** Process state and the monad *)

Section Script.
Context `{L : Library}.

(** The module's configuration globals. *)
Variables PDF_FILES CSV_FILES URLS : list str.
Variable DB_DIR : str.

Record Proc := mkProc {
  fs : gset str;                         (* paths that exist *)
  docs_cache : option (list Document);   (* st.cache_data *)
  vs_cache : option VectorStore;         (* st.cache_resource *)
  session_state : gmap string (list (str * str));
  calls : list Call;                     (* oldest first *)
  rendered : list Element                (* oldest first *)
}.

Definition M (A : Type) : Type := Proc -> result A * Proc.

Definition ret {A} (a : A) : M A := fun s => (Ok a, s).

Definition bind {A B} (m : M A) (k : A -> M B) : M B :=
  fun s =>
    match m s with
    | (Ok a, s') => k a s'
    | (Raise e, s') => (Raise e, s')
    end.

Definition raise {A} (e : exn) : M A := fun s => (Raise e, s).

(** [try: m  except Exception as e: h e]. *)
Definition try_except {A} (m : M A) (h : exn -> M A) : M A :=
  fun s =>
    match m s with
    | (Ok a, s') => (Ok a, s')
    | (Raise e, s') => h e s'
    end.

#[global] Instance M_ret : MRet M := @ret.
#[global] Instance M_bind : MBind M := fun A B k m => bind m k.

(** [for x in xs: acc = body x acc]. *)
Fixpoint for_in {A B} (xs : list A) (acc : B) (body : A -> B -> M B) : M B :=
  match xs with
  | [] => ret acc
  | x :: xs' => acc' ← body x acc; for_in xs' acc' body
  end.

(** State accessors. *)
Definition log_call (c : Call) : M unit := fun s =>
  (Ok tt, mkProc (fs s) (docs_cache s) (vs_cache s) (session_state s)
            (calls s ++ [c]) (rendered s)).

Definition render (e : Element) : M unit := fun s =>
  (Ok tt, mkProc (fs s) (docs_cache s) (vs_cache s) (session_state s)
            (calls s) (rendered s ++ [e])).

Definition set_fs (f : gset str -> gset str) : M unit := fun s =>
  (Ok tt, mkProc (f (fs s)) (docs_cache s) (vs_cache s) (session_state s)
            (calls s) (rendered s)).

Definition set_docs_cache (d : list Document) : M unit := fun s =>
  (Ok tt, mkProc (fs s) (Some d) (vs_cache s) (session_state s)
            (calls s) (rendered s)).

Definition set_vs_cache (db : VectorStore) : M unit := fun s =>
  (Ok tt, mkProc (fs s) (docs_cache s) (Some db) (session_state s)
            (calls s) (rendered s)).

Definition set_session (f : gmap string (list (str * str)) ->
                            gmap string (list (str * str))) : M unit :=
  fun s =>
  (Ok tt, mkProc (fs s) (docs_cache s) (vs_cache s) (f (session_state s))
            (calls s) (rendered s)).

Definition get {A} (f : Proc -> A) : M A := fun s => (Ok (f s), s).

(** A library call: logged, then its value or its exception. *)
Definition call {A} (c : Call) (r : result A) : M A :=
  log_call c;;
  match r with
  | Ok a => ret a
  | Raise e => raise e
  end.

(** [os.path.exists(p)]. *)
Definition os_path_exists (p : str) : M bool :=
  get (fun s => bool_decide (p ∈ fs s)).

Definition st_warning (body : str) : M unit := render (ElWarning body).
Definition st_error (body : str) : M unit := render (ElError body).
Definition st_info (body : str) : M unit := render (ElInfo body).
Definition st_write (body : str) : M unit := render (ElWrite body).
Definition st_markdown (body : str) (unsafe : bool) : M unit :=
  render (ElMarkdown body unsafe).

(** The decorators: the body runs on the first successful call of the
    process, later calls return the stored value.  (An exception stores
    nothing.) *)
Definition st_cache_data (f : M (list Document)) : M (list Document) :=
  c ← get docs_cache;
  match c with
  | Some d => mret d
  | None => d ← f; set_docs_cache d;; mret d
  end.

Definition st_cache_resource (f : M VectorStore) : M VectorStore :=
  c ← get vs_cache;
  match c with
  | Some db => mret db
  | None => db ← f; set_vs_cache db;; mret db
  end.

(** ** The script *)

(** *** 2. LLM + Embeddings *)

Definition get_llm : ChatModel :=
  mkChatModel (py "gemini-2.5-flash") 0%Q.

Definition embeddings : Embeddings :=
  mkEmbeddings (py "text-embedding-004").

(** Line 32, [embeddings = GoogleGenerativeAIEmbeddings(model=...)]: the
    constructor runs on every re-run of the script and may raise; the object
    it returns is [embeddings].  Constructing a client reads no file and
    reaches no service, so it is not an entry of the call log. *)
Definition make_embeddings : M Embeddings :=
  match embeddings_init (py "text-embedding-004") with
  | Ok _ => mret embeddings
  | Raise e => raise e
  end.

(** *** 4. Load and cache documents *)

Definition pdf_not_found (pdf : str) : str :=
  [0x26A0] ++ py " PDF not found: " ++ pdf.

Definition csv_not_found (csv : str) : str :=
  [0x26A0] ++ py " CSV not found: " ++ csv.

Definition url_failed (url : str) (e : exn) : str :=
  [0x26A0] ++ py " Failed to load URL " ++ url ++ py ": " ++ exn_str e.

Definition load_pdf (pdf : str) (docs : list Document) : M (list Document) :=
  ex ← os_path_exists pdf;
  if ex : bool then
    loaded ← call (CallPdfLoad pdf) (pdf_load pdf);
    mret (docs ++ loaded)
  else
    st_warning (pdf_not_found pdf);; mret docs.

Definition load_csv (csv : str) (docs : list Document) : M (list Document) :=
  ex ← os_path_exists csv;
  if ex : bool then
    loaded ← call (CallCsvLoad csv (py "utf-8")) (csv_load csv (py "utf-8"));
    mret (docs ++ loaded)
  else
    st_warning (csv_not_found csv);; mret docs.

Definition load_url (url : str) (docs : list Document) : M (list Document) :=
  try_except
    (loaded ← call (CallWebLoad url) (web_load url);
     mret (docs ++ loaded))
    (fun e => st_warning (url_failed url e);; mret docs).

Definition load_all_documents : M (list Document) :=
  docs ← for_in PDF_FILES [] load_pdf;
  docs ← for_in CSV_FILES docs load_csv;
  docs ← for_in URLS docs load_url;
  mret docs.

Definition loaded_message (all_docs : list Document) : str :=
  [0x2705] ++ py " Loaded " ++ str_of_nat (length all_docs)
    ++ py " documents.".

(** *** 5. Build or load vectorstore *)

(** The global [all_docs] it reads is its argument here. *)
Definition get_vectorstore (all_docs : list Document) : M VectorStore :=
  ex ← os_path_exists DB_DIR;
  if ex : bool then
    call (CallChromaOpen embeddings DB_DIR) (chroma_open embeddings DB_DIR)
  else
    chunks ← call (CallSplit 1000 200 all_docs)
                  (Ok (split_documents 1000 200 all_docs));
    log_call (CallFromDocuments chunks embeddings DB_DIR);;
    match chroma_from_documents chunks embeddings DB_DIR with
    | Raise e =>
        (* the call may have written before it failed *)
        set_fs (chroma_failed_build_fs DB_DIR);; raise e
    | Ok db =>
        set_fs (chroma_build_fs DB_DIR);;
        call (CallPersist db) (chroma_persist db);;
        set_fs (chroma_persist_fs db);;
        mret db
    end.

(** *** 6. Retrieval + Answer *)

Definition no_relevant_documents : str :=
  [0x274C] ++ py " No relevant documents found.".

Definition prompt (context query : str) : str :=
  py "Use ONLY the context to answer. Also provide sample calculations. Generate output in table."
  ++ nl ++ nl ++ py "Context:" ++ nl ++ context
  ++ nl ++ nl ++ py "Question: " ++ query.

(** The global [db] it reads is its argument here. *)
Definition ask_llm (db : VectorStore) (query : str) : M str :=
  results ← call (CallRetrieve db 5 query) (retrieve db 5 query);
  match results with
  | [] => mret no_relevant_documents
  | _ :: _ =>
      let context := join (nl ++ nl) (List.map page_content results) in
      let llm := get_llm in
      answer ← call (CallLLM llm (prompt context query))
                    (llm_invoke llm (prompt context query));
      mret (content answer)
  end.

(** *** 7. Streamlit UI *)

Definition header_html : str :=
  join nl
    [ [];
      py "    <div style=" ++ dq ++ py "text-align:center; padding:20px; background-color:#2E86C1; border-radius:10px;" ++ dq ++ py ">";
      py "        <h1 style=" ++ dq ++ py "color:white;" ++ dq ++ py ">" ++ [0x1F4E6] ++ py " Indian Customs RAG Assistant</h1>";
      py "        <p style=" ++ dq ++ py "color:white; font-size:18px;" ++ dq ++ py ">";
      py "            Ask anything about Indian Customs Duty, Import-Export Taxes, Rules & Regulations.";
      py "        </p>";
      py "    </div>";
      py "    " ].

Definition how_to_use : str :=
  join nl
    [ [];
      py "    **How to use this RAG bot:**  ";
      py "    1. Type your question about customs duty in the input box below.  ";
      py "    2. Press **Ask** to get an answer based on the documents and reliable sources.  ";
      py "    3. The bot will give a summarized response and, if relevant, example calculations.  ";
      py "    " ].

Definition footer_html : str :=
  join nl
    [ [];
      py "    <div style=" ++ dq ++ py "text-align:center; color:gray; font-size:14px;" ++ dq ++ py ">";
      py "        Made with " ++ [0x2764; 0xFE0F] ++ py " using Streamlit & LangChain | Powered by Google Generative AI";
      py "    </div>";
      py "    " ].

Definition please_enter : str :=
  [0x26A0] ++ py " Please enter a question.".

Definition answer_html (answer : str) : str :=
  py "<div style='padding:15px; background:#F7F9F9; border-radius:10px'>"
  ++ answer ++ py "</div>".

(** [if "history" not in st.session_state: st.session_state.history = []] *)
Definition init_history : M unit :=
  ss ← get session_state;
  match ss !! "history"%string with
  | Some _ => mret tt
  | None => set_session (insert "history"%string [])
  end.

(** [st.session_state.history] *)
Definition read_history : M (list (str * str)) :=
  ss ← get session_state;
  match ss !! "history"%string with
  | Some h => mret h
  | None =>
      raise (mkExn (py "AttributeError")
               (py "st.session_state has no attribute " ++ dq ++ py "history"
                  ++ dq))
  end.

(** The body of [if st.button("Ask"):]. *)
Definition ask_handler (db : VectorStore) (user_query : str) : M unit :=
  if bool_decide (strip user_query = []) then
    st_warning please_enter
  else
    render (ElSpinner (py "Generating answer..."));;
    answer ← ask_llm db user_query;
    st_markdown (py "## " ++ [0x1F9FE] ++ py " Answer") false;;
    st_markdown (answer_html answer) true.

(** One iteration of [for q, a in st.session_state.history:]. *)
Definition show_pair (qa : str * str) (_ : unit) : M unit :=
  st_markdown (py "### " ++ [0x2753] ++ py " Question:") false;;
  st_write (fst qa);;
  st_markdown (py "### " ++ [0x2705] ++ py " Answer:") false;;
  st_write (snd qa);;
  st_markdown (py "---") false.

(** Sections 1 to 4 of the script: configuration and ingestion. *)
Definition startup : M (list Document) :=
  render (ElPageConfig (py "Indian Customs RAG Assistant") (py "wide")
            [0x1F4E6]);;
  (match getenv_GOOGLE_API_KEY with
   | None | Some [] =>
       st_error ([0x274C] ++ py " GOOGLE_API_KEY not found in my.env")
   | Some (_ :: _) => mret tt
   end);;
  make_embeddings;;
  all_docs ← st_cache_data load_all_documents;
  st_write (loaded_message all_docs);;
  mret all_docs.

(** Section 7 of the script, given the global [db]. *)
Definition front_end (db : VectorStore) (i : Interaction) : M unit :=
  st_markdown header_html true;;
  st_markdown (py "<br>") true;;
  init_history;;
  st_info how_to_use;;
  st_write (py "Ask any question related to Indian customs duty:");;
  render (ElTextInput (py "Enter your question:")
            (py "e.g., What is the customs duty for importing laptops?"));;
  render (ElButton (py "Ask"));;
  (if ask_clicked i then ask_handler db (user_query i) else mret tt);;
  history ← read_history;
  for_in history tt show_pair;;
  st_markdown (py "<br><hr>") true;;
  st_markdown footer_html true.

(** One run of the whole script. *)
Definition script (i : Interaction) : M unit :=
  all_docs ← startup;
  db ← st_cache_resource (get_vectorstore all_docs);
  front_end db i.

(** A process: the script re-run once per interaction.  An exception ends
    the re-run it occurs in, not the process. *)
Fixpoint run (inputs : list Interaction) (s : Proc) : Proc :=
  match inputs with
  | [] => s
  | i :: inputs' => run inputs' (snd (script i s))
  end.

(** A process that has just started, over the filesystem [f]. *)
Definition fresh (f : gset str) : Proc := mkProc f None None ∅ [] [].

(** The session history, empty until it is created. *)
Definition history (s : Proc) : list (str * str) :=
  default [] (session_state s !! "history"%string).

(** ** Vocabulary of the properties *)

(** The state after more calls were logged and more elements rendered. *)
Definition emit (cs : list Call) (es : list Element) (s : Proc) : Proc :=
  mkProc (fs s) (docs_cache s) (vs_cache s) (session_state s)
    (calls s ++ cs) (rendered s ++ es).

Definition is_llm_call (c : Call) : bool :=
  match c with CallLLM _ _ => true | _ => false end.

Definition is_split_call (c : Call) : bool :=
  match c with CallSplit _ _ _ => true | _ => false end.

(** The build call is the one that embeds chunks. *)
Definition is_build_call (c : Call) : bool :=
  match c with CallFromDocuments _ _ _ => true | _ => false end.

Definition is_warning (e : Element) : bool :=
  match e with ElWarning _ => true | _ => false end.

(** A query that is empty or made of whitespace only. *)
Definition blank (q : str) : Prop := Forall (fun c => isspace c = true) q.

(** The documents a loader call yields to the result. *)
Definition docs_of (r : result (list Document)) : list Document :=
  match r with Ok d => d | Raise _ => [] end.

(** The configured paths of a list that are absent from the filesystem. *)
Definition missing (F : gset str) (paths : list str) : list str :=
  List.filter (fun p => negb (bool_decide (p ∈ F))) paths.

(** The configured paths of a list that exist. *)
Definition present (F : gset str) (paths : list str) : list str :=
  List.filter (fun p => bool_decide (p ∈ F)) paths.

(** The configured URLs whose fetch fails. *)
Definition failed_urls : list str :=
  List.filter (fun u => negb (is_Ok (web_load u))) URLS.

Definition utf8 : str := py "utf-8".

(** The documents of every source that loads, PDFs then CSVs then URLs,
    each group in the order of its configured list. *)
Definition loaded_docs (F : gset str) : list Document :=
  flat_map (fun p => docs_of (pdf_load p)) (present F PDF_FILES)
  ++ flat_map (fun p => docs_of (csv_load p utf8)) (present F CSV_FILES)
  ++ flat_map (fun u => docs_of (web_load u)) URLS.

(** The warning of one URL, if its fetch fails. *)
Definition url_warning (u : str) : list Element :=
  match web_load u with
  | Ok _ => []
  | Raise e => [ElWarning (url_failed u e)]
  end.

(** One warning per missing PDF, per missing CSV and per failed URL. *)
Definition load_warnings (F : gset str) : list Element :=
  List.map (fun p => ElWarning (pdf_not_found p)) (missing F PDF_FILES)
  ++ List.map (fun p => ElWarning (csv_not_found p)) (missing F CSV_FILES)
  ++ flat_map url_warning URLS.

(** The loader calls of an ingestion in which every local file parses. *)
Definition load_calls (F : gset str) : list Call :=
  List.map CallPdfLoad (present F PDF_FILES)
  ++ List.map (fun p => CallCsvLoad p utf8) (present F CSV_FILES)
  ++ List.map CallWebLoad URLS.

(** [p] is a configured PDF or CSV that exists and whose parsing raises
    [e]. *)
Definition local_failure (F : gset str) (p : str) (e : exn) : Prop :=
  (p ∈ PDF_FILES /\ p ∈ F /\ pdf_load p = Raise e)
  \/ (p ∈ CSV_FILES /\ p ∈ F /\ csv_load p utf8 = Raise e).

(** Every configured PDF and CSV that exists parses. *)
Definition local_ok (F : gset str) : Prop :=
  forall p e, ~ local_failure F p e.

Definition is_web_call (c : Call) : bool :=
  match c with CallWebLoad _ => true | _ => false end.

(** The loop body shared by the PDF and the CSV loops. *)
Definition load_local (mk : str -> Call) (ld : str -> result (list Document))
    (not_found : str -> str) (path : str) (docs : list Document)
  : M (list Document) :=
  ex ← os_path_exists path;
  if ex : bool then
    loaded ← call (mk path) (ld path);
    mret (docs ++ loaded)
  else
    st_warning (not_found path);; mret docs.

(** [m] takes every state to one related to it by [R], whether it returns
    or raises. *)
Definition preserves (R : relation Proc) {A} (m : M A) : Prop :=
  forall s, R s (snd (m s)).

(** The history is what it was. *)
Definition same_history : relation Proc :=
  fun s s' => history s' = history s.

(** Nothing was split, nothing was built and the disk is what it was. *)
Definition calm : relation Proc :=
  fun s s' =>
    fs s' = fs s
    /\ List.filter is_split_call (calls s') = List.filter is_split_call (calls s)
    /\ List.filter is_build_call (calls s') = List.filter is_build_call (calls s).

(** [calm], and the cached vector store is what it was. *)
Definition quiet : relation Proc :=
  fun s s' => calm s s' /\ vs_cache s' = vs_cache s.

(** The cached vector store, if any, was opened from [DB_DIR]. *)
Definition reopened (s : Proc) : Prop :=
  vs_cache s = None
  \/ exists db, vs_cache s = Some db /\ chroma_open embeddings DB_DIR = Ok db.

Definition is_loader_call (c : Call) : bool :=
  match c with
  | CallPdfLoad _ | CallCsvLoad _ _ | CallWebLoad _ => true
  | _ => false
  end.

(** The calls that split documents or touch the vector store on disk. *)
Definition is_store_call (c : Call) : bool :=
  match c with
  | CallSplit _ _ _ | CallChromaOpen _ _ | CallFromDocuments _ _ _
  | CallPersist _ => true
  | _ => false
  end.

(** Only the call log may differ. *)
Definition only_calls : relation Proc :=
  fun s s' =>
    fs s' = fs s /\ docs_cache s' = docs_cache s /\ vs_cache s' = vs_cache s
    /\ session_state s' = session_state s /\ rendered s' = rendered s.

(** Only the call log and the rendered elements may differ. *)
Definition only_output : relation Proc :=
  fun s s' =>
    fs s' = fs s /\ docs_cache s' = docs_cache s /\ vs_cache s' = vs_cache s
    /\ session_state s' = session_state s.

(** The cached documents are what they were and no loader was called. *)
Definition ingested : relation Proc :=
  fun s s' =>
    docs_cache s' = docs_cache s
    /\ List.filter is_loader_call (calls s')
       = List.filter is_loader_call (calls s).

(** The cached store and the disk are what they were and neither the
    splitter nor the store was called. *)
Definition stored : relation Proc :=
  fun s s' =>
    vs_cache s' = vs_cache s /\ fs s' = fs s
    /\ List.filter is_store_call (calls s')
       = List.filter is_store_call (calls s).

Definition is_retrieve_call (c : Call) : bool :=
  match c with CallRetrieve _ _ _ => true | _ => false end.

(** The calls that run the embedding function the store is given (lines 88
    and 93): the build embeds every chunk, and a retrieval, which queries
    the store by text (line 104), embeds the query. *)
Definition is_embedding_call (c : Call) : bool :=
  match c with
  | CallFromDocuments _ _ _ | CallRetrieve _ _ _ => true
  | _ => false
  end.

(** If the call is a retrieval, it is one on the store [db]. *)
Definition retrieval_on (db : VectorStore) (c : Call) : Prop :=
  match c with
  | CallRetrieve db' _ _ => db' = db
  | _ => True
  end.

(** If the call splits documents or touches the store, it is the opening of
    the store in [DB_DIR]. *)
Definition opens_only (c : Call) : Prop :=
  is_store_call c = true -> c = CallChromaOpen embeddings DB_DIR.

(** Every call logged so far being [ok], every call logged afterwards is. *)
Definition keeps (ok : Call -> Prop) : relation Proc :=
  fun s s' => Forall ok (calls s) -> Forall ok (calls s').

(** The state with [db] cached as the vector store. *)
Definition with_store (db : VectorStore) (s : Proc) : Proc :=
  mkProc (fs s) (docs_cache s) (Some db) (session_state s) (calls s)
    (rendered s).

(** The state with the disk replaced by [F]. *)
Definition on_disk (F : gset str) (s : Proc) : Proc :=
  mkProc F (docs_cache s) (vs_cache s) (session_state s) (calls s)
    (rendered s).

(** What the display loop renders for one pair. *)
Definition pair_elements (qa : str * str) : list Element :=
  [ ElMarkdown (py "### " ++ [0x2753] ++ py " Question:") false;
    ElWrite (fst qa);
    ElMarkdown (py "### " ++ [0x2705] ++ py " Answer:") false;
    ElWrite (snd qa);
    ElMarkdown (py "---") false ].

(** What the script renders about the API key. *)
Definition api_key_elements : list Element :=
  match getenv_GOOGLE_API_KEY with
  | Some (_ :: _) => []
  | _ => [ElError ([0x274C] ++ py " GOOGLE_API_KEY not found in my.env")]
  end.

(** The page above the answer, and below the history. *)
Definition page_top : list Element :=
  [ ElMarkdown header_html true;
    ElMarkdown (py "<br>") true;
    ElInfo how_to_use;
    ElWrite (py "Ask any question related to Indian customs duty:");
    ElTextInput (py "Enter your question:")
      (py "e.g., What is the customs duty for importing laptops?");
    ElButton (py "Ask") ].

Definition page_bottom : list Element :=
  [ ElMarkdown (py "<br><hr>") true; ElMarkdown footer_html true ].

(** The state once the session has a history. *)
Definition ensure_history (s : Proc) : Proc :=
  mkProc (fs s) (docs_cache s) (vs_cache s)
    (<["history"%string := history s]> (session_state s))
    (calls s) (rendered s).

(** ** Strings *)

Lemma lstrip_blank (q : str) : blank q -> lstrip q = [].
Proof.
  induction 1 as [|c q Hc _ IH]; simpl; [reflexivity|].
  now rewrite Hc.
Qed.

Lemma strip_blank (q : str) : blank q -> strip q = [].
Proof.
  intros Hq. unfold strip, rstrip. now rewrite (lstrip_blank q Hq).
Qed.

Lemma lstrip_nil_blank (q : str) : lstrip q = [] -> blank q.
Proof.
  induction q as [|c q IH]; simpl; intros H; [constructor|].
  destruct (isspace c) eqn:Hc; [|discriminate].
  apply Forall_cons; split; [exact Hc|exact (IH H)].
Qed.

Lemma lstrip_suffix (q : str) : exists pre, q = pre ++ lstrip q /\ blank pre.
Proof.
  induction q as [|c q [pre [IH Hpre]]]; simpl.
  - exists []. split; [reflexivity|constructor].
  - destruct (isspace c) eqn:Hc.
    + exists (c :: pre). split; [simpl; congruence|].
      apply Forall_cons; split; [exact Hc|exact Hpre].
    + exists []. split; [reflexivity|constructor].
Qed.

(** [strip] is empty exactly on the blank strings. *)
Lemma strip_nil_iff (q : str) : strip q = [] <-> blank q.
Proof.
  split; [|apply strip_blank].
  unfold strip, rstrip. intros H.
  assert (Hr : lstrip (rev (lstrip q)) = []).
  { apply (f_equal (@rev N)) in H. now rewrite rev_involutive in H. }
  apply lstrip_nil_blank in Hr.
  destruct (lstrip_suffix q) as [pre [Hq Hpre]].
  rewrite Hq. apply Forall_app. split; [exact Hpre|].
  apply Forall_rev in Hr. now rewrite rev_involutive in Hr.
Qed.

Lemma contains_middle (a b c : str) : contains b (a ++ b ++ c).
Proof. now exists a, c. Qed.

Lemma contains_end (a b : str) : contains b (a ++ b).
Proof. exists a, []. now rewrite app_nil_r. Qed.

(** ** The answer generator *)

Ltac run_monad :=
  unfold mbind, M_bind, mret, M_ret, bind, ret, raise, try_except, call,
    log_call, render, get, st_warning, st_write, st_markdown, st_info,
    st_error, os_path_exists; simpl.

(** C3. When retrieval finds nothing, [ask_llm] returns the fixed message
    "No relevant documents found." and the only library call it makes is
    the retrieval: no LLM call. *)
Theorem ask_llm_no_results (db : VectorStore) (query : str) (s : Proc) :
  retrieve db 5 query = Ok [] ->
  fst (ask_llm db query s) = Ok no_relevant_documents
  /\ calls (snd (ask_llm db query s)) = calls s ++ [CallRetrieve db 5 query]
  /\ List.filter is_llm_call (calls (snd (ask_llm db query s)))
     = List.filter is_llm_call (calls s)
  /\ rendered (snd (ask_llm db query s)) = rendered s.
Proof.
  intros Hr. unfold ask_llm. run_monad. rewrite Hr. simpl.
  rewrite List.filter_app. simpl. rewrite app_nil_r. auto.
Qed.

(** C2. When retrieval finds at least one chunk, [ask_llm] makes exactly
    one LLM call, after the retrieval; the model is configured with
    temperature 0; the prompt contains the query text and the chunks'
    [page_content] joined by blank lines; and the outcome of [ask_llm] is
    that of the LLM call, its [content] returned unchanged. *)
Theorem ask_llm_with_results (db : VectorStore) (query : str) (s : Proc)
    (results : list Document) :
  retrieve db 5 query = Ok results ->
  results <> [] ->
  let context := join (nl ++ nl) (List.map page_content results) in
  let p := prompt context query in
  fst (ask_llm db query s) = result_map content (llm_invoke get_llm p)
  /\ calls (snd (ask_llm db query s))
     = calls s ++ [CallRetrieve db 5 query; CallLLM get_llm p]
  /\ List.filter is_llm_call (calls (snd (ask_llm db query s)))
     = List.filter is_llm_call (calls s) ++ [CallLLM get_llm p]
  /\ temperature get_llm = 0%Q
  /\ contains query p
  /\ contains context p.
Proof.
  intros Hr Hne. cbv zeta. unfold ask_llm. run_monad. rewrite Hr. simpl.
  destruct results as [|d ds]; [congruence|].
  set (p := prompt _ query).
  assert (Hq : contains query p).
  { unfold p, prompt. rewrite !app_assoc. apply contains_end. }
  assert (Hc : contains (join (nl ++ nl) (List.map page_content (d :: ds))) p).
  { unfold p, prompt.
    rewrite (app_assoc _ nl), (app_assoc _ nl), (app_assoc _ (py "Context:")),
      (app_assoc _ nl).
    apply contains_middle. }
  destruct (llm_invoke get_llm p) as [a|e]; simpl;
    rewrite <- app_assoc, List.filter_app; simpl; repeat split; auto.
Qed.

(** ** The Ask button *)

(** C8. Submitting a query that is empty or whitespace only shows the
    warning and nothing else: the handler returns normally, makes no library
    call (so [ask_llm], whose first step is a retrieval, was not called) and
    leaves the session state, with its history, as it was. *)
Theorem ask_handler_blank (db : VectorStore) (q : str) (s : Proc) :
  blank q ->
  fst (ask_handler db q s) = Ok tt
  /\ rendered (snd (ask_handler db q s)) = rendered s ++ [ElWarning please_enter]
  /\ calls (snd (ask_handler db q s)) = calls s
  /\ session_state (snd (ask_handler db q s)) = session_state s
  /\ history (snd (ask_handler db q s)) = history s.
Proof.
  intros Hq. unfold ask_handler.
  rewrite (bool_decide_eq_true_2 _ (strip_blank q Hq)).
  run_monad. auto.
Qed.

(** ** Ingestion *)

Lemma emit_nil (s : Proc) : emit [] [] s = s.
Proof. destruct s. unfold emit. simpl. now rewrite !app_nil_r. Qed.

Lemma emit_emit (cs1 cs2 : list Call) (es1 es2 : list Element) (s : Proc) :
  emit cs2 es2 (emit cs1 es1 s) = emit (cs1 ++ cs2) (es1 ++ es2) s.
Proof. unfold emit. simpl. now rewrite !app_assoc. Qed.

Lemma load_pdf_local :
  load_pdf = load_local CallPdfLoad pdf_load pdf_not_found.
Proof. reflexivity. Qed.

Lemma load_csv_local :
  load_csv = load_local (fun p => CallCsvLoad p utf8)
               (fun p => csv_load p utf8) csv_not_found.
Proof. reflexivity. Qed.

Section LocalLoop.
Variable mk : str -> Call.
Variable ld : str -> result (list Document).
Variable not_found : str -> str.
Hypothesis mk_local : forall p, is_web_call (mk p) = false.

Let body := load_local mk ld not_found.

Lemma load_local_present p docs s d :
  p ∈ fs s -> ld p = Ok d ->
  body p docs s = (Ok (docs ++ d), emit [mk p] [] s).
Proof.
  intros Hp Hd. unfold body, load_local. run_monad.
  rewrite (bool_decide_eq_true_2 _ Hp), Hd. simpl.
  unfold emit. simpl. now rewrite app_nil_r.
Qed.

Lemma load_local_raise p docs s e :
  p ∈ fs s -> ld p = Raise e ->
  body p docs s = (Raise e, emit [mk p] [] s).
Proof.
  intros Hp Hd. unfold body, load_local. run_monad.
  rewrite (bool_decide_eq_true_2 _ Hp), Hd. simpl.
  unfold emit. simpl. now rewrite app_nil_r.
Qed.

Lemma load_local_missing p docs s :
  p ∉ fs s ->
  body p docs s = (Ok docs, emit [] [ElWarning (not_found p)] s).
Proof.
  intros Hp. unfold body, load_local. run_monad.
  rewrite (bool_decide_eq_false_2 _ Hp).
  unfold emit. simpl. now rewrite app_nil_r.
Qed.

(** A loop over local files none of which fails to parse. *)
Lemma local_loop_ok paths : forall docs s,
  (forall p e, p ∈ paths -> p ∈ fs s -> ld p <> Raise e) ->
  for_in paths docs body s
  = (Ok (docs ++ flat_map (fun p => docs_of (ld p)) (present (fs s) paths)),
     emit (List.map mk (present (fs s) paths))
          (List.map (fun p => ElWarning (not_found p))
             (missing (fs s) paths)) s).
Proof.
  induction paths as [|p paths IH]; intros docs s Hok.
  - simpl. now rewrite app_nil_r, emit_nil.
  - assert (Htl : forall q e, q ∈ paths -> q ∈ fs s -> ld q <> Raise e).
    { intros q e Hq. apply Hok. now apply list_elem_of_further. }
    simpl. unfold mbind, M_bind, bind.
    destruct (decide (p ∈ fs s)) as [Hp|Hp].
    + destruct (ld p) as [d|e] eqn:Hd.
      2:{ exfalso. eapply Hok; eauto. apply list_elem_of_here. }
      rewrite (load_local_present p docs s d Hp Hd).
      rewrite IH by exact Htl. simpl fs.
      rewrite (bool_decide_eq_true_2 _ Hp). simpl.
      rewrite Hd. simpl. rewrite emit_emit. simpl.
      now rewrite app_assoc.
    + rewrite (load_local_missing p docs s Hp).
      rewrite IH by exact Htl. simpl fs.
      rewrite (bool_decide_eq_false_2 _ Hp). simpl.
      now rewrite emit_emit.
Qed.

(** A loop over local files one of which fails to parse: the first
    failure ends the loop, and no URL was fetched. *)
Lemma local_loop_raise paths : forall docs s p e,
  p ∈ paths -> p ∈ fs s -> ld p = Raise e ->
  exists p' e' cs es,
    p' ∈ paths /\ p' ∈ fs s /\ ld p' = Raise e'
    /\ for_in paths docs body s = (Raise e', emit cs es s)
    /\ Forall (fun c => is_web_call c = false) cs.
Proof.
  induction paths as [|q paths IH]; intros docs s p e Hin Hp He.
  - now apply elem_of_nil in Hin.
  - simpl. unfold mbind, M_bind, bind.
    destruct (decide (q ∈ fs s)) as [Hq|Hq].
    + destruct (ld q) as [d|e0] eqn:Hd.
      * rewrite (load_local_present q docs s d Hq Hd).
        apply elem_of_cons in Hin as [->|Hin]; [congruence|].
        destruct (IH (docs ++ d) (emit [mk q] [] s) p e Hin Hp He)
          as (p' & e' & cs & es & H1 & H2 & H3 & H4 & H5).
        exists p', e', ([mk q] ++ cs), ([] ++ es).
        rewrite H4, emit_emit.
        repeat split; auto using list_elem_of_further.
        constructor; auto.
      * rewrite (load_local_raise q docs s e0 Hq Hd).
        exists q, e0, [mk q], [].
        repeat split; auto using list_elem_of_here.
    + rewrite (load_local_missing q docs s Hq).
      apply elem_of_cons in Hin as [->|Hin]; [contradiction|].
      destruct (IH docs (emit [] [ElWarning (not_found q)] s) p e Hin Hp He)
        as (p' & e' & cs & es & H1 & H2 & H3 & H4 & H5).
      exists p', e', ([] ++ cs), ([ElWarning (not_found q)] ++ es).
      rewrite H4, emit_emit.
      repeat split; auto using list_elem_of_further.
Qed.
End LocalLoop.

(** A URL never ends the loop: its documents or its warning. *)
Lemma load_url_spec (u : str) (docs : list Document) (s : Proc) :
  load_url u docs s
  = (Ok (docs ++ docs_of (web_load u)), emit [CallWebLoad u] (url_warning u) s).
Proof.
  unfold load_url, url_warning. run_monad.
  destruct (web_load u) as [d|e]; simpl.
  - unfold emit. simpl. now rewrite app_nil_r.
  - unfold emit. simpl. now rewrite app_nil_r.
Qed.

Lemma url_loop (urls : list str) : forall docs s,
  for_in urls docs load_url s
  = (Ok (docs ++ flat_map (fun u => docs_of (web_load u)) urls),
     emit (List.map CallWebLoad urls) (flat_map url_warning urls) s).
Proof.
  induction urls as [|u urls IH]; intros docs s; simpl.
  - now rewrite app_nil_r, emit_nil.
  - unfold mbind, M_bind, bind. rewrite load_url_spec, IH, emit_emit.
    simpl. now rewrite app_assoc.
Qed.

(** What [load_all_documents] does when every existing local file parses. *)
Lemma load_all_documents_ok (s : Proc) :
  local_ok (fs s) ->
  load_all_documents s
  = (Ok (loaded_docs (fs s)), emit (load_calls (fs s)) (load_warnings (fs s)) s).
Proof.
  intros Hok. unfold load_all_documents.
  rewrite load_pdf_local, load_csv_local.
  unfold mbind, M_bind, bind.
  rewrite local_loop_ok.
  2:{ intros p e Hp Hf He. apply (Hok p e). left. auto. }
  rewrite local_loop_ok.
  2:{ intros p e Hp Hf He. apply (Hok p e). right. auto. }
  rewrite url_loop. simpl fs. rewrite !emit_emit.
  unfold mret, M_ret, ret, loaded_docs, load_calls, load_warnings.
  simpl. now rewrite !app_assoc.
Qed.

Lemma url_warning_count (urls : list str) :
  length (flat_map url_warning urls)
  = length (List.filter (fun u => negb (is_Ok (web_load u))) urls).
Proof.
  induction urls as [|u urls IH]; simpl; [reflexivity|].
  rewrite length_app, IH. unfold url_warning.
  destruct (web_load u); reflexivity.
Qed.

Lemma load_warnings_are_warnings (F : gset str) :
  Forall (fun e => is_warning e = true) (load_warnings F).
Proof.
  unfold load_warnings. rewrite !Forall_app. repeat split.
  - apply Forall_forall. intros e He.
    apply list_elem_of_In, in_map_iff in He as [p [<- _]]. reflexivity.
  - apply Forall_forall. intros e He.
    apply list_elem_of_In, in_map_iff in He as [p [<- _]]. reflexivity.
  - apply Forall_forall. intros e He.
    apply list_elem_of_In, in_flat_map in He as [u [_ He]].
    unfold url_warning in He. destruct (web_load u); simpl in He; [tauto|].
    destruct He as [<-|[]]. reflexivity.
Qed.

(** C6. When the only failures are absent PDF or CSV paths and failing URL
    fetches, [load_all_documents] returns without raising; what it renders
    is exactly one warning per missing PDF path, one per missing CSV path and
    one per failed URL, in that order; and its result holds the documents of
    every source that did load. *)
Theorem load_all_documents_tolerant (s : Proc) :
  local_ok (fs s) ->
  fst (load_all_documents s) = Ok (loaded_docs (fs s))
  /\ rendered (snd (load_all_documents s))
     = rendered s
       ++ List.map (fun p => ElWarning (pdf_not_found p))
            (missing (fs s) PDF_FILES)
       ++ List.map (fun p => ElWarning (csv_not_found p))
            (missing (fs s) CSV_FILES)
       ++ flat_map url_warning URLS
  /\ length (flat_map url_warning URLS) = length failed_urls
  /\ length (List.filter is_warning
               (skipn (length (rendered s))
                  (rendered (snd (load_all_documents s)))))
     = (length (missing (fs s) PDF_FILES)
        + length (missing (fs s) CSV_FILES)
        + length failed_urls)%nat.
Proof.
  intros Hok. rewrite (load_all_documents_ok s Hok). simpl.
  repeat split.
  - apply url_warning_count.
  - rewrite drop_app_length.
    fold (load_warnings (fs s)).
    assert (Hw := load_warnings_are_warnings (fs s)).
    assert (Hf : List.filter is_warning (load_warnings (fs s))
                 = load_warnings (fs s)).
    { induction Hw as [|e l He _ IH]; simpl; [reflexivity|].
      now rewrite He, IH. }
    rewrite Hf. unfold load_warnings.
    rewrite !length_app, !length_map, url_warning_count. unfold failed_urls.
    lia.
Qed.

(** C7. When [load_all_documents] returns (every existing local file
    parses), its result is the concatenation of the documents of the
    sources that loaded: those of the PDFs first, then those of the CSVs,
    then those of the URLs, each group in the order of its configured
    list. *)
Theorem load_all_documents_order (s : Proc) :
  local_ok (fs s) ->
  fst (load_all_documents s)
  = Ok (flat_map (fun p => docs_of (pdf_load p)) (present (fs s) PDF_FILES)
        ++ flat_map (fun p => docs_of (csv_load p utf8))
             (present (fs s) CSV_FILES)
        ++ flat_map (fun u => docs_of (web_load u)) URLS).
Proof.
  intros Hok. now rewrite (load_all_documents_ok s Hok).
Qed.

(** Either some existing file of the list fails to parse, or none does. *)
Lemma parse_failure_dec (ld : str -> result (list Document)) (F : gset str)
    (paths : list str) :
  (exists q e0, q ∈ paths /\ q ∈ F /\ ld q = Raise e0)
  \/ (forall q e0, q ∈ paths -> q ∈ F -> ld q <> Raise e0).
Proof.
  induction paths as [|q qs IH].
  - right. intros q e0 Hq. now apply elem_of_nil in Hq.
  - destruct IH as [(q' & e0 & H1 & H2 & H3)|IH].
    { left. exists q', e0. auto using list_elem_of_further. }
    destruct (decide (q ∈ F)) as [Hq|Hq].
    + destruct (ld q) as [d|e0] eqn:Hd.
      * right. intros q' e1 Hq'. apply elem_of_cons in Hq' as [->|Hq'].
        -- intros _. congruence.
        -- now apply IH.
      * left. exists q, e0. auto using list_elem_of_here.
    + right. intros q' e1 Hq'. apply elem_of_cons in Hq' as [->|Hq'].
      * intros Hq'. contradiction.
      * now apply IH.
Qed.

(** A parse failure of a local file leaves [load_all_documents]. *)
Lemma load_all_documents_raises (s : Proc) (p : str) (e : exn) :
  local_failure (fs s) p e ->
  exists p' e' cs es,
    local_failure (fs s) p' e'
    /\ load_all_documents s = (Raise e', emit cs es s)
    /\ Forall (fun c => is_web_call c = false) cs.
Proof.
  intros Hfail. unfold load_all_documents.
  rewrite load_pdf_local, load_csv_local. unfold mbind, M_bind, bind.
  destruct (parse_failure_dec pdf_load (fs s) PDF_FILES)
    as [(q & e0 & H1 & H2 & H3)|Hpdf].
  - destruct (local_loop_raise CallPdfLoad pdf_load pdf_not_found
                (fun _ => eq_refl) PDF_FILES [] s q e0 H1 H2 H3)
      as (p' & e' & cs & es & Hp1 & Hp2 & Hp3 & Hrun & Hcs).
    exists p', e', cs, es. rewrite Hrun.
    repeat split; auto. left. auto.
  - rewrite (local_loop_ok _ _ _ PDF_FILES [] s Hpdf).
    destruct Hfail as [(H1 & H2 & H3)|(H1 & H2 & H3)].
    { exfalso. exact (Hpdf p e H1 H2 H3). }
    match goal with
    | |- context [for_in CSV_FILES ?d _ ?t] =>
        destruct (local_loop_raise (fun p => CallCsvLoad p utf8)
                    (fun p => csv_load p utf8) csv_not_found
                    (fun _ => eq_refl) CSV_FILES d t p e H1 H2 H3)
          as (p' & e' & cs & es & Hp1 & Hp2 & Hp3 & Hrun & Hcs)
    end.
    rewrite Hrun, emit_emit. simpl in Hp2.
    eexists p', e', _, _. repeat split; eauto.
    + right. auto.
    + apply Forall_app. split; [|exact Hcs].
      apply Forall_forall. intros c Hc.
      apply list_elem_of_In, in_map_iff in Hc as [x [<- _]]. reflexivity.
Qed.

(** C9. If a configured PDF or CSV exists and its parsing raises, then
    [load_all_documents] raises: the exception of such a file leaves the
    function unhandled, and ingestion stops there, before any URL is
    fetched; when one exception is all that local parsing can raise, it is
    the one that propagates.  (URL failures, by contrast, are caught: see
    [load_url_spec].) *)
Theorem load_all_documents_parse_error (s : Proc) (p : str) (e : exn) :
  local_failure (fs s) p e ->
  exists p' e' cs es,
    local_failure (fs s) p' e'
    /\ load_all_documents s = (Raise e', emit cs es s)
    /\ Forall (fun c => is_web_call c = false) cs
    /\ ((forall q e0, local_failure (fs s) q e0 -> e0 = e) -> e' = e).
Proof.
  intros Hfail.
  destruct (load_all_documents_raises s p e Hfail)
    as (p' & e' & cs & es & Hlf & Hrun & Hcs).
  exists p', e', cs, es. repeat split; auto.
  intros Hall. exact (Hall p' e' Hlf).
Qed.

(** [load_all_documents] returns exactly when every existing local file
    parses. *)
Lemma load_all_documents_returns (s : Proc) (docs : list Document) :
  fst (load_all_documents s) = Ok docs <->
  local_ok (fs s) /\ docs = loaded_docs (fs s).
Proof.
  split.
  - intros Hret.
    assert (Hok : local_ok (fs s)).
    { intros p e Hf.
      destruct (load_all_documents_raises s p e Hf)
        as (p' & e' & cs & es & _ & Hrun & _).
      rewrite Hrun in Hret. discriminate. }
    split; [exact Hok|].
    rewrite (load_all_documents_ok s Hok) in Hret. simpl in Hret. congruence.
  - intros [Hok ->]. now rewrite (load_all_documents_ok s Hok).
Qed.

(** ** Rules for [preserves] *)

Section Rules.
Context (R : relation Proc) `{!PreOrder R}.

Lemma preserves_ret {A} (a : A) : preserves R (mret a : M A).
Proof. intros s. simpl. reflexivity. Qed.

Lemma preserves_raise {A} (e : exn) : preserves R (raise e : M A).
Proof. intros s. simpl. reflexivity. Qed.

Lemma preserves_get {A} (f : Proc -> A) : preserves R (get f).
Proof. intros s. simpl. reflexivity. Qed.

Lemma preserves_bind {A B} (m : M A) (k : A -> M B) :
  preserves R m -> (forall a, preserves R (k a)) -> preserves R (m ≫= k).
Proof.
  intros Hm Hk s. unfold mbind, M_bind, bind.
  specialize (Hm s). destruct (m s) as [[a|e] s']; simpl in *.
  - etransitivity; [exact Hm|apply Hk].
  - exact Hm.
Qed.

Lemma preserves_try_except {A} (m : M A) (h : exn -> M A) :
  preserves R m -> (forall e, preserves R (h e)) ->
  preserves R (try_except m h).
Proof.
  intros Hm Hh s. unfold try_except.
  specialize (Hm s). destruct (m s) as [[a|e] s']; simpl in *.
  - exact Hm.
  - etransitivity; [exact Hm|apply Hh].
Qed.

Lemma preserves_for_in {A B} (xs : list A) (body : A -> B -> M B) :
  (forall x acc, preserves R (body x acc)) ->
  forall acc, preserves R (for_in xs acc body).
Proof.
  intros Hb. induction xs as [|x xs IH]; intros acc; simpl.
  - apply preserves_ret.
  - apply preserves_bind; [apply Hb|intros a; apply IH].
Qed.

Lemma preserves_call {A} (c : Call) (r : result A) :
  preserves R (log_call c) -> preserves R (call c r).
Proof.
  intros Hc. unfold call. apply preserves_bind; [exact Hc|].
  intros _. destruct r; [apply preserves_ret|apply preserves_raise].
Qed.
End Rules.

#[local] Instance same_history_preorder : PreOrder same_history.
Proof.
  split; [intros s; reflexivity|].
  intros s1 s2 s3 H1 H2. unfold same_history in *. congruence.
Qed.

#[local] Instance calm_preorder : PreOrder calm.
Proof.
  split; [intros s; repeat split|].
  intros s1 s2 s3 (A1 & B1 & C1) (A2 & B2 & C2).
  repeat split; congruence.
Qed.

#[local] Instance quiet_preorder : PreOrder quiet.
Proof.
  split; [intros s; split; reflexivity|].
  intros s1 s2 s3 [H1 V1] [H2 V2].
  split; [etransitivity; eauto|congruence].
Qed.

(** Decompose a computation along its binds, loops and branches. *)
Ltac preserves_step :=
  first
    [ apply preserves_bind; [typeclasses eauto| |intros ?]
    | apply preserves_ret; typeclasses eauto
    | apply preserves_raise; typeclasses eauto
    | apply preserves_get; typeclasses eauto
    | apply preserves_try_except; [typeclasses eauto| |intros ?]
    | apply preserves_for_in; [typeclasses eauto|intros ? ?]
    | apply preserves_call; [typeclasses eauto|]
    | match goal with
      | |- preserves _ (match ?x with _ => _ end) => destruct x
      end ].

(** *** The history *)

Lemma log_call_history c : preserves same_history (log_call c).
Proof. intros s. reflexivity. Qed.

Lemma render_history e : preserves same_history (render e).
Proof. intros s. reflexivity. Qed.

Lemma set_fs_history f : preserves same_history (set_fs f).
Proof. intros s. reflexivity. Qed.

Lemma set_docs_cache_history d : preserves same_history (set_docs_cache d).
Proof. intros s. reflexivity. Qed.

Lemma set_vs_cache_history db : preserves same_history (set_vs_cache db).
Proof. intros s. reflexivity. Qed.

(** Creating the history leaves it empty. *)
Lemma init_history_history : preserves same_history init_history.
Proof.
  intros s. unfold init_history, same_history, history. run_monad.
  destruct (session_state s !! "history"%string) as [h|] eqn:Hh; simpl.
  - now rewrite Hh.
  - now rewrite lookup_insert_eq.
Qed.

Ltac history_tac :=
  repeat first
    [ apply log_call_history | apply render_history | apply set_fs_history
    | apply set_docs_cache_history | apply set_vs_cache_history
    | apply init_history_history
    | preserves_step ].

Lemma ask_llm_history db q : preserves same_history (ask_llm db q).
Proof. unfold ask_llm. history_tac. Qed.

Lemma script_history i : preserves same_history (script i).
Proof.
  unfold script, startup, make_embeddings, st_cache_data, st_cache_resource,
    load_all_documents, get_vectorstore, front_end, ask_handler,
    read_history, show_pair, load_pdf, load_csv, load_url, os_path_exists,
    st_warning, st_error, st_write, st_markdown, st_info.
  history_tac; apply ask_llm_history.
Qed.

Lemma run_history inputs : forall s, history (run inputs s) = history s.
Proof.
  induction inputs as [|i inputs IH]; intros s; simpl; [reflexivity|].
  rewrite IH. apply script_history.
Qed.

(** C1 (what the code does, against the claim). Whatever is submitted, and
    however many submissions are answered, the session history of a process
    is empty after every re-run of the script: the history is created empty
    and rendered, and no statement of the script appends to it. *)
Theorem history_stays_empty (inputs : list Interaction) (f : gset str) :
  history (run inputs (fresh f)) = [].
Proof. now rewrite run_history. Qed.

(** *** Splitting and building *)

Lemma log_call_quiet c :
  is_split_call c = false -> is_build_call c = false ->
  preserves quiet (log_call c).
Proof.
  intros Hs Hb s. unfold quiet, calm. simpl.
  rewrite !List.filter_app. simpl. rewrite Hs, Hb.
  now rewrite !app_nil_r.
Qed.

Lemma render_quiet e : preserves quiet (render e).
Proof. intros s. repeat split. Qed.

Lemma set_docs_cache_quiet d : preserves quiet (set_docs_cache d).
Proof. intros s. repeat split. Qed.

Lemma set_session_quiet f : preserves quiet (set_session f).
Proof. intros s. repeat split. Qed.

Ltac quiet_tac :=
  repeat first
    [ apply log_call_quiet; reflexivity | apply render_quiet
    | apply set_docs_cache_quiet | apply set_session_quiet
    | preserves_step ].

Lemma startup_quiet : preserves quiet startup.
Proof.
  unfold startup, make_embeddings, st_cache_data, load_all_documents, load_pdf, load_csv,
    load_url, os_path_exists, st_warning, st_error, st_write.
  quiet_tac.
Qed.

Lemma front_end_quiet db i : preserves quiet (front_end db i).
Proof.
  unfold front_end, init_history, ask_handler, ask_llm, read_history,
    show_pair, st_warning, st_error, st_write, st_markdown, st_info.
  quiet_tac.
Qed.

Lemma quiet_calm s s' : quiet s s' -> calm s s'.
Proof. now intros [H _]. Qed.

(** From here on the front end is used through [front_end_quiet] only. *)
Opaque front_end.

(** With a vector store in the cache, a re-run neither splits nor builds. *)
Lemma script_cached i s :
  is_Some (vs_cache s) -> quiet s (snd (script i s)).
Proof.
  intros [db Hdb]. unfold script, mbind, M_bind, bind.
  pose proof (startup_quiet s) as H1.
  destruct (startup s) as [[docs|e] s1]; simpl in H1; [|exact H1].
  assert (Hdb1 : vs_cache s1 = Some db) by (destruct H1; congruence).
  unfold st_cache_resource. run_monad. rewrite Hdb1. simpl.
  transitivity s1; [exact H1|]. apply (front_end_quiet db i s1).
Qed.

(** With [DB_DIR] on disk, a re-run neither splits nor builds, and a store
    it caches is the one it opened. *)
Lemma script_reopen i s :
  DB_DIR ∈ fs s -> reopened s ->
  calm s (snd (script i s)) /\ reopened (snd (script i s)).
Proof.
  intros Hdir Hre.
  destruct (vs_cache s) as [db|] eqn:Hvs.
  { pose proof (script_cached i s) as [Hc Hv]; [rewrite Hvs; eauto|].
    split; [exact Hc|]. unfold reopened in *. rewrite Hv. exact Hre. }
  unfold script, mbind, M_bind, bind.
  pose proof (startup_quiet s) as H1.
  destruct (startup s) as [[docs|e] s1]; simpl in H1.
  2:{ simpl. split; [apply H1|]. left. destruct H1; congruence. }
  destruct H1 as [Hc1 Hv1].
  assert (Hdir1 : DB_DIR ∈ fs s1) by (destruct Hc1 as [-> _]; exact Hdir).
  unfold st_cache_resource, get_vectorstore. run_monad.
  rewrite Hv1, Hvs. simpl.
  rewrite (bool_decide_eq_true_2 _ Hdir1).
  destruct (chroma_open embeddings DB_DIR) as [db|e] eqn:Hopen; simpl.
  - match goal with
    | |- context [front_end db i ?t] =>
        pose proof (front_end_quiet db i t) as [Hc2 Hv2];
        assert (Hc3 : calm s1 t)
    end.
    { destruct Hc1 as (A & B & C). unfold calm. simpl.
      rewrite !List.filter_app. simpl. now rewrite !app_nil_r. }
    split.
    + transitivity s1; [exact Hc1|]. etransitivity; [exact Hc3|exact Hc2].
    + right. exists db. simpl in Hv2. auto.
  - split.
    + transitivity s1; [exact Hc1|].
      unfold calm. simpl. rewrite !List.filter_app. simpl.
      now rewrite !app_nil_r.
    + left. simpl. congruence.
Qed.

Lemma run_cached inputs : forall s,
  is_Some (vs_cache s) -> quiet s (run inputs s).
Proof.
  induction inputs as [|i inputs IH]; intros s Hs; simpl; [reflexivity|].
  pose proof (script_cached i s Hs) as Hq.
  transitivity (snd (script i s)); [exact Hq|].
  apply IH. destruct Hq as [_ ->]. exact Hs.
Qed.

Lemma run_reopen inputs : forall s,
  DB_DIR ∈ fs s -> reopened s ->
  calm s (run inputs s) /\ reopened (run inputs s).
Proof.
  induction inputs as [|i inputs IH]; intros s Hdir Hre; simpl.
  - split; [reflexivity|exact Hre].
  - destruct (script_reopen i s Hdir Hre) as [Hc Hre'].
    destruct (IH (snd (script i s))) as [Hc' Hre'']; auto.
    + destruct Hc as [-> _]. exact Hdir.
    + split; [etransitivity; eauto|exact Hre''].
Qed.

(** *** The first run of a fresh process *)

(** Ingestion in a process whose document cache is empty. *)
Lemma startup_first (s : Proc) :
  embeddings_init (py "text-embedding-004") = Ok tt ->
  docs_cache s = None -> local_ok (fs s) ->
  exists pre,
    startup s
    = (Ok (loaded_docs (fs s)),
       mkProc (fs s) (Some (loaded_docs (fs s))) (vs_cache s)
         (session_state s) (calls s ++ load_calls (fs s))
         (rendered s ++ pre ++ load_warnings (fs s)
            ++ [ElWrite (loaded_message (loaded_docs (fs s)))])).
Proof.
  intros Hemb Hcache Hok. unfold startup, make_embeddings, st_cache_data.
  rewrite Hemb.
  destruct getenv_GOOGLE_API_KEY as [[|c k]|]; run_monad;
    rewrite Hcache; simpl;
    match goal with
    | |- context [load_all_documents ?t] =>
        rewrite (load_all_documents_ok t Hok)
    end; simpl; rewrite <- !app_assoc.
  - eexists [_; _]. reflexivity.
  - eexists [_]. reflexivity.
  - eexists [_; _]. reflexivity.
Qed.

(** The first run of the script when [DB_DIR] is absent and every call of
    the build succeeds. *)
Lemma script_build (i : Interaction) (s : Proc) (db : VectorStore) :
  embeddings_init (py "text-embedding-004") = Ok tt ->
  docs_cache s = None -> vs_cache s = None ->
  DB_DIR ∉ fs s -> local_ok (fs s) ->
  chroma_from_documents (split_documents 1000 200 (loaded_docs (fs s)))
    embeddings DB_DIR = Ok db ->
  chroma_persist db = Ok tt ->
  vs_cache (snd (script i s)) = Some db
  /\ fs (snd (script i s))
     = chroma_persist_fs db (chroma_build_fs DB_DIR (fs s))
  /\ List.filter is_build_call (calls (snd (script i s)))
     = List.filter is_build_call (calls s)
       ++ [CallFromDocuments
             (split_documents 1000 200 (loaded_docs (fs s))) embeddings DB_DIR]
  /\ List.filter is_split_call (calls (snd (script i s)))
     = List.filter is_split_call (calls s)
       ++ [CallSplit 1000 200 (loaded_docs (fs s))].
Proof.
  intros Hemb Hdc Hvc Hdir Hok Hbuild Hpersist.
  pose proof (startup_quiet s) as [(_ & Hs & Hb) _].
  destruct (startup_first s Hemb Hdc Hok) as [pre Hstart].
  rewrite Hstart in Hs, Hb. simpl in Hs, Hb.
  rewrite List.filter_app in Hs, Hb.
  unfold script, mbind, M_bind, bind. rewrite Hstart.
  unfold st_cache_resource, get_vectorstore. run_monad.
  rewrite Hvc. simpl. rewrite (bool_decide_eq_false_2 _ Hdir).
  rewrite Hbuild. simpl. rewrite Hpersist. simpl.
  match goal with
  | |- context [front_end db i ?t] =>
      pose proof (front_end_quiet db i t) as [(A & B & C) D]
  end.
  simpl in A, B, C, D. rewrite A, B, C, D.
  rewrite !List.filter_app, Hs, Hb. simpl.
  rewrite !app_nil_r. auto.
Qed.

(** C5. When [DB_DIR] is absent before the process starts, the embeddings
    client is constructed (line 32 does not raise), ingestion
    completes and the build succeeds, then over the whole process, however
    many times the script is re-run, exactly one build call is made; it
    embeds exactly the chunks that splitting the loaded documents with chunk
    size 1000 and overlap 200 produces (that split being the only one) and
    is given [DB_DIR] to persist to; and, the vector store library leaving
    on disk the directory it persists to, [DB_DIR] exists afterwards. *)
Theorem build_path (i : Interaction) (inputs : list Interaction)
    (f : gset str) (db : VectorStore) :
  DB_DIR ∉ f ->
  embeddings_init (py "text-embedding-004") = Ok tt ->
  local_ok f ->
  chroma_from_documents (split_documents 1000 200 (loaded_docs f))
    embeddings DB_DIR = Ok db ->
  chroma_persist db = Ok tt ->
  (forall d db0 F, d ∈ chroma_persist_fs db0 (chroma_build_fs d F)) ->
  List.filter is_build_call (calls (run (i :: inputs) (fresh f)))
  = [CallFromDocuments (split_documents 1000 200 (loaded_docs f))
       embeddings DB_DIR]
  /\ List.filter is_split_call (calls (run (i :: inputs) (fresh f)))
     = [CallSplit 1000 200 (loaded_docs f)]
  /\ DB_DIR ∈ fs (run (i :: inputs) (fresh f))
  /\ vs_cache (run (i :: inputs) (fresh f)) = Some db.
Proof.
  intros Hdir Hemb Hok Hbuild Hpersist Hcontract. simpl run.
  destruct (script_build i (fresh f) db) as (Hv & Hf & Hb & Hs); auto.
  simpl in Hf, Hb, Hs.
  destruct (run_cached inputs (snd (script i (fresh f))))
    as [(A & B & C) D]; [rewrite Hv; eauto|].
  rewrite A, B, C, D, Hf, Hb, Hs, Hv.
  repeat split; auto.
Qed.

(** C10. When every configured PDF and CSV path is absent and every URL
    fetch fails, [load_all_documents] returns the empty list without
    raising, and the script, which reaches ingestion once the embeddings
    client is constructed, goes on: it reports "Loaded 0 documents." and
    moves to the vector store with no documents. *)
Theorem nothing_loads (s : Proc) :
  docs_cache s = None ->
  (forall p, p ∈ PDF_FILES ++ CSV_FILES -> p ∉ fs s) ->
  (forall u, u ∈ URLS -> is_Ok (web_load u) = false) ->
  fst (load_all_documents s) = Ok []
  /\ (embeddings_init (py "text-embedding-004") = Ok tt ->
      fst (startup s) = Ok []
      /\ (exists before,
            rendered (snd (startup s))
            = rendered s ++ before
              ++ [ElWrite ([0x2705] ++ py " Loaded 0 documents.")])
      /\ forall i,
           script i s
           = (db ← st_cache_resource (get_vectorstore []); front_end db i)
               (snd (startup s))).
Proof.
  intros Hdc Habs Hfail.
  assert (Hpresent : forall l, (forall p, p ∈ l -> p ∉ fs s) ->
                               present (fs s) l = []).
  { induction l as [|p l IH]; intros Hl; simpl; [reflexivity|].
    rewrite (bool_decide_eq_false_2 _ (Hl p (list_elem_of_here _ _))).
    apply IH. intros q Hq. apply Hl. now apply list_elem_of_further. }
  assert (Hok : local_ok (fs s)).
  { intros p e [(H1 & H2 & _)|(H1 & H2 & _)];
      apply (Habs p); auto; apply elem_of_app; auto. }
  assert (Hdocs : loaded_docs (fs s) = []).
  { unfold loaded_docs.
    rewrite !Hpresent by (intros p Hp; apply Habs, elem_of_app; auto).
    simpl. clear -Hfail. induction URLS as [|u us IH]; [reflexivity|].
    simpl. rewrite IH by (intros v Hv; apply Hfail; now apply list_elem_of_further).
    specialize (Hfail u (list_elem_of_here _ _)).
    destruct (web_load u); [discriminate|reflexivity]. }
  split; [now rewrite (load_all_documents_ok s Hok), Hdocs|].
  intros Hemb.
  destruct (startup_first s Hemb Hdc Hok) as [pre Hstart].
  rewrite Hdocs in Hstart.
  repeat split.
  - now rewrite Hstart.
  - rewrite Hstart. simpl. exists (pre ++ load_warnings (fs s)).
    now rewrite <- !app_assoc.
  - intros i. unfold script at 1. unfold mbind at 1. unfold M_bind, bind.
    now rewrite Hstart.
Qed.

Transparent front_end.

(** ** Further properties of the answer generator *)

#[local] Instance only_calls_preorder : PreOrder only_calls.
Proof.
  split; [intros s; repeat split|].
  intros s1 s2 s3 (A1 & B1 & C1 & D1 & E1) (A2 & B2 & C2 & D2 & E2).
  repeat split; congruence.
Qed.

Lemma log_call_only_calls c : preserves only_calls (log_call c).
Proof. intros s. repeat split. Qed.

Lemma ask_llm_frame (db : VectorStore) (query : str) :
  preserves only_calls (ask_llm db query).
Proof.
  unfold ask_llm. repeat first [apply log_call_only_calls|preserves_step].
Qed.

(** [ask_llm] renders nothing and leaves the disk, both caches and the
    session state alone, whether it returns or raises. *)
Theorem ask_llm_only_calls (db : VectorStore) (query : str) (s : Proc) :
  fs (snd (ask_llm db query s)) = fs s
  /\ docs_cache (snd (ask_llm db query s)) = docs_cache s
  /\ vs_cache (snd (ask_llm db query s)) = vs_cache s
  /\ session_state (snd (ask_llm db query s)) = session_state s
  /\ rendered (snd (ask_llm db query s)) = rendered s.
Proof.
  assert (H : preserves only_calls (ask_llm db query)).
  { unfold ask_llm. repeat first [apply log_call_only_calls|preserves_step]. }
  exact (H s).
Qed.

(** A failed retrieval leaves [ask_llm] as it is raised, and the chat model
    is not called. *)
Theorem ask_llm_retrieval_error (db : VectorStore) (query : str) (s : Proc)
    (e : exn) :
  retrieve db 5 query = Raise e ->
  ask_llm db query s = (Raise e, emit [CallRetrieve db 5 query] [] s).
Proof.
  intros Hr. unfold ask_llm. run_monad. rewrite Hr. simpl.
  unfold emit. now rewrite app_nil_r.
Qed.

(** A failed chat model call leaves [ask_llm] as it is raised: no retry, no
    fallback answer. *)
Theorem ask_llm_llm_error (db : VectorStore) (query : str) (s : Proc)
    (results : list Document) (e : exn) :
  retrieve db 5 query = Ok results ->
  results <> [] ->
  llm_invoke get_llm
    (prompt (join (nl ++ nl) (List.map page_content results)) query)
  = Raise e ->
  ask_llm db query s
  = (Raise e,
     emit [CallRetrieve db 5 query;
           CallLLM get_llm
             (prompt (join (nl ++ nl) (List.map page_content results)) query)]
       [] s).
Proof.
  intros Hr Hne He. unfold ask_llm. run_monad. rewrite Hr.
  destruct results as [|d ds]; [congruence|].
  simpl in He |- *. rewrite He. simpl.
  unfold emit. now rewrite app_nil_r, <- app_assoc.
Qed.

Lemma contains_trans (a b c : str) :
  contains a b -> contains b c -> contains a c.
Proof.
  intros (p1 & q1 & ->) (p2 & q2 & ->).
  exists (p2 ++ p1), (q1 ++ q2). now rewrite <- !app_assoc.
Qed.

Lemma contains_join (sep x : str) (parts : list str) :
  x ∈ parts -> contains x (join sep parts).
Proof.
  induction parts as [|p ps IH]; intros Hx.
  - now apply elem_of_nil in Hx.
  - apply elem_of_cons in Hx as [->|Hx].
    + destruct ps as [|p' ps]; simpl.
      * exists [], []. now rewrite app_nil_r.
      * exists [], (sep ++ join sep (p' :: ps)). reflexivity.
    + specialize (IH Hx). destruct ps as [|p' ps].
      * now apply elem_of_nil in Hx.
      * change (join sep (p :: p' :: ps))
          with (p ++ sep ++ join sep (p' :: ps)).
        eapply contains_trans; [exact IH|].
        exists (p ++ sep), []. now rewrite app_nil_r, <- app_assoc.
Qed.

(** No retrieved chunk is dropped: the text of each one is in the prompt
    the chat model is called with. *)
Theorem ask_llm_sends_every_chunk (db : VectorStore) (query : str) (s : Proc)
    (results : list Document) (d : Document) :
  retrieve db 5 query = Ok results ->
  d ∈ results ->
  exists p,
    CallLLM get_llm p ∈ calls (snd (ask_llm db query s))
    /\ contains (page_content d) p.
Proof.
  intros Hr Hd.
  exists (prompt (join (nl ++ nl) (List.map page_content results)) query).
  split.
  - unfold ask_llm. run_monad. rewrite Hr. simpl.
    destruct results as [|d0 ds]; [now apply elem_of_nil in Hd|].
    match goal with
    | |- context [llm_invoke ?l ?p] => destruct (llm_invoke l p)
    end; simpl; apply elem_of_app; right; apply list_elem_of_here.
  - eapply contains_trans.
    + apply (contains_join (nl ++ nl)).
      apply list_elem_of_In, in_map, list_elem_of_In. exact Hd.
    + unfold prompt.
      rewrite (app_assoc _ nl), (app_assoc _ nl),
        (app_assoc _ (py "Context:")), (app_assoc _ nl).
      apply contains_middle.
Qed.

(** ** Further properties of the Ask button *)

(** The handler on a query that is not blank. *)
Lemma ask_handler_question (db : VectorStore) (q : str) (s : Proc) :
  ~ blank q ->
  ask_handler db q s
  = match ask_llm db q (emit [] [ElSpinner (py "Generating answer...")] s) with
    | (Ok answer, s1) =>
        (Ok tt,
         emit []
           [ElMarkdown (py "## " ++ [0x1F9FE] ++ py " Answer") false;
            ElMarkdown (answer_html answer) true] s1)
    | (Raise e, s1) => (Raise e, s1)
    end.
Proof.
  intros Hq. unfold ask_handler.
  rewrite bool_decide_eq_false_2 by (now rewrite strip_nil_iff).
  unfold mbind, M_bind, bind, st_markdown, render at 1.
  replace (mkProc (fs s) (docs_cache s) (vs_cache s) (session_state s)
             (calls s) (rendered s ++ [ElSpinner (py "Generating answer...")]))
    with (emit [] [ElSpinner (py "Generating answer...")] s)
    by (unfold emit; now rewrite app_nil_r).
  destruct (ask_llm db q _) as [[answer|e] s1]; [|reflexivity].
  unfold render, emit. simpl. now rewrite app_nil_r, <- app_assoc.
Qed.

(** A query that is not blank is sent to the answer generator as typed,
    surrounding whitespace included; the answer is rendered under its
    heading, and an exception of the answer generator leaves the handler
    with no answer rendered. *)
Theorem ask_handler_nonblank (db : VectorStore) (q : str) (s : Proc) :
  ~ blank q ->
  ask_handler db q s
  = match ask_llm db q (emit [] [ElSpinner (py "Generating answer...")] s) with
    | (Ok answer, s1) =>
        (Ok tt,
         emit []
           [ElMarkdown (py "## " ++ [0x1F9FE] ++ py " Answer") false;
            ElMarkdown (answer_html answer) true] s1)
    | (Raise e, s1) => (Raise e, s1)
    end.
Proof. apply ask_handler_question. Qed.

(** ** Further properties of the vector store *)

(** Once [DB_DIR] exists, or a store is cached, the documents just loaded
    play no part in the store that is used: a stale index is reopened as it
    is. *)
Theorem vectorstore_ignores_documents (docs1 docs2 : list Document)
    (s : Proc) :
  DB_DIR ∈ fs s \/ is_Some (vs_cache s) ->
  st_cache_resource (get_vectorstore docs1) s
  = st_cache_resource (get_vectorstore docs2) s.
Proof.
  intros H. unfold st_cache_resource, get_vectorstore. run_monad.
  destruct (vs_cache s) as [db|]; [reflexivity|].
  destruct H as [H|[db H]]; [|discriminate].
  now rewrite (bool_decide_eq_true_2 _ H).
Qed.

(** When [DB_DIR] exists and opening the store fails, the exception leaves
    [get_vectorstore]: the only call made is the open (no fallback to a
    rebuild), the disk is untouched and nothing is cached. *)
Theorem open_failure (docs : list Document) (s : Proc) (e : exn) :
  DB_DIR ∈ fs s ->
  vs_cache s = None ->
  chroma_open embeddings DB_DIR = Raise e ->
  st_cache_resource (get_vectorstore docs) s
  = (Raise e, emit [CallChromaOpen embeddings DB_DIR] [] s).
Proof.
  intros Hdir Hvs Hopen. unfold st_cache_resource, get_vectorstore.
  run_monad. rewrite Hvs. simpl. rewrite (bool_decide_eq_true_2 _ Hdir).
  rewrite Hopen. simpl. unfold emit. now rewrite app_nil_r.
Qed.

(** When [DB_DIR] is absent and the build fails, the exception leaves
    [get_vectorstore] after the split and the build call: nothing is
    persisted and nothing is cached, and the disk is what the failed call
    left.  If that includes [DB_DIR], the next attempt opens the directory
    the failed build left instead of building again. *)
Theorem build_failure (docs : list Document) (s : Proc) (e : exn) :
  DB_DIR ∉ fs s ->
  vs_cache s = None ->
  chroma_from_documents (split_documents 1000 200 docs) embeddings DB_DIR
  = Raise e ->
  st_cache_resource (get_vectorstore docs) s
  = (Raise e,
     on_disk (chroma_failed_build_fs DB_DIR (fs s))
       (emit [CallSplit 1000 200 docs;
              CallFromDocuments (split_documents 1000 200 docs) embeddings
                DB_DIR]
          [] s))
  /\ (DB_DIR ∈ chroma_failed_build_fs DB_DIR (fs s) ->
      forall docs',
        calls (snd (st_cache_resource (get_vectorstore docs')
                      (snd (st_cache_resource (get_vectorstore docs) s))))
        = calls s
          ++ [CallSplit 1000 200 docs;
              CallFromDocuments (split_documents 1000 200 docs) embeddings
                DB_DIR;
              CallChromaOpen embeddings DB_DIR]).
Proof.
  intros Hdir Hvs Hbuild.
  assert (Hfirst :
    st_cache_resource (get_vectorstore docs) s
    = (Raise e,
       on_disk (chroma_failed_build_fs DB_DIR (fs s))
         (emit [CallSplit 1000 200 docs;
                CallFromDocuments (split_documents 1000 200 docs) embeddings
                  DB_DIR]
            [] s))).
  { unfold st_cache_resource, get_vectorstore.
    run_monad. rewrite Hvs. simpl. rewrite (bool_decide_eq_false_2 _ Hdir).
    rewrite Hbuild. simpl. unfold on_disk, emit. simpl.
    now rewrite app_nil_r, <- app_assoc. }
  split; [exact Hfirst|].
  intros Hleft docs'. rewrite Hfirst. simpl snd.
  unfold st_cache_resource, get_vectorstore. run_monad. rewrite Hvs. simpl.
  rewrite (bool_decide_eq_true_2 _ Hleft).
  destruct (chroma_open embeddings DB_DIR); simpl; now rewrite <- app_assoc.
Qed.

(** ** The page *)

Lemma bind_render {A} (e : Element) (k : unit -> M A) (s : Proc) :
  (render e ≫= k) s = k tt (emit [] [e] s).
Proof.
  unfold mbind, M_bind, bind, render, emit. simpl. now rewrite app_nil_r.
Qed.

Lemma render_emit (e : Element) (s : Proc) :
  render e s = (Ok tt, emit [] [e] s).
Proof. unfold render, emit. now rewrite app_nil_r. Qed.

Lemma bind_ret {A B} (a : A) (k : A -> M B) (s : Proc) :
  (mret a ≫= k) s = k a s.
Proof. reflexivity. Qed.

Lemma bind_get {A B} (f : Proc -> A) (k : A -> M B) (s : Proc) :
  (get f ≫= k) s = k (f s) s.
Proof. reflexivity. Qed.

Lemma bind_read_history {A} (k : list (str * str) -> M A) (s : Proc)
    (h : list (str * str)) :
  session_state s !! "history"%string = Some h ->
  (read_history ≫= k) s = k h s.
Proof.
  intros Hh. unfold read_history, mbind, M_bind, bind, get.
  cbv beta iota. rewrite Hh. reflexivity.
Qed.

Lemma show_pair_emit (qa : str * str) (s : Proc) :
  show_pair qa tt s = (Ok tt, emit [] (pair_elements qa) s).
Proof.
  unfold show_pair, st_markdown, st_write.
  rewrite !bind_render, render_emit, !emit_emit. reflexivity.
Qed.

Lemma show_history (h : list (str * str)) : forall s,
  for_in h tt show_pair s = (Ok tt, emit [] (flat_map pair_elements h) s).
Proof.
  induction h as [|qa h IH]; intros s.
  - simpl. now rewrite emit_nil.
  - change (for_in (qa :: h) tt show_pair s)
      with ((show_pair qa tt ≫= fun u => for_in h u show_pair) s).
    unfold mbind, M_bind, bind. rewrite show_pair_emit.
    rewrite IH, emit_emit. reflexivity.
Qed.

(** The history is rendered oldest pair first, each pair as a question
    heading, the question, an answer heading, the answer and a rule. *)
Theorem display_loop (h : list (str * str)) (s : Proc) :
  session_state s !! "history"%string = Some h ->
  (history ← read_history; for_in history tt show_pair) s
  = (Ok tt, emit [] (flat_map pair_elements h) s).
Proof.
  intros Hh. rewrite (bind_read_history _ s h Hh). apply show_history.
Qed.

Lemma ensure_history_present (s : Proc) :
  is_Some (session_state s !! "history"%string) -> ensure_history s = s.
Proof.
  intros [h Hh]. unfold ensure_history, history. rewrite Hh. simpl.
  rewrite (insert_id _ _ _ Hh). now destruct s.
Qed.

Lemma bind_init_history {A} (k : unit -> M A) (s : Proc) :
  (init_history ≫= k) s = k tt (ensure_history s).
Proof.
  unfold init_history, mbind, M_bind, bind, get. cbv beta iota.
  destruct (session_state s !! "history"%string) as [h|] eqn:Hh.
  - rewrite ensure_history_present; [reflexivity|rewrite Hh; eauto].
  - unfold ensure_history, history. rewrite Hh. reflexivity.
Qed.

(** Creating the history keeps the pairs a session already has and gives a
    session without history the empty one, so that reading it right after
    never raises. *)
Theorem init_then_read (s : Proc) :
  (init_history;; read_history) s = (Ok (history s), ensure_history s)
  /\ session_state (ensure_history s) !! "history"%string = Some (history s)
  /\ history (ensure_history s) = history s.
Proof.
  assert (Hl : session_state (ensure_history s) !! "history"%string
               = Some (history s)).
  { unfold ensure_history. simpl. apply lookup_insert_eq. }
  split; [|split; [exact Hl|unfold history at 1; now rewrite Hl]].
  rewrite bind_init_history.
  cbv beta. unfold read_history, mbind, M_bind, bind, get.
  cbv beta iota. rewrite Hl. reflexivity.
Qed.

Lemma ensure_history_emit (cs : list Call) (es : list Element) (s : Proc) :
  ensure_history (emit cs es s) = emit cs es (ensure_history s).
Proof. reflexivity. Qed.

Lemma history_ensure (s : Proc) : history (ensure_history s) = history s.
Proof.
  unfold history at 1. unfold ensure_history. simpl.
  now rewrite lookup_insert_eq.
Qed.

(** The page from the history down. *)
Lemma page_rest (h : list (str * str)) (t : Proc) :
  session_state t !! "history"%string = Some h ->
  (history ← read_history;
   for_in history tt show_pair;;
   render (ElMarkdown (py "<br><hr>") true);;
   render (ElMarkdown footer_html true)) t
  = (Ok tt, emit [] (flat_map pair_elements h ++ page_bottom) t).
Proof.
  intros Ht. rewrite (bind_read_history _ t _ Ht).
  unfold mbind at 1. unfold M_bind, bind. rewrite show_history.
  rewrite bind_render, render_emit, !emit_emit. reflexivity.
Qed.

(** The page down to the button. *)
Lemma page_head {A} (k : unit -> M A) (s : Proc) :
  (st_markdown header_html true;;
   st_markdown (py "<br>") true;;
   init_history;;
   st_info how_to_use;;
   st_write (py "Ask any question related to Indian customs duty:");;
   render (ElTextInput (py "Enter your question:")
             (py "e.g., What is the customs duty for importing laptops?"));;
   render (ElButton (py "Ask"));;
   k tt) s
  = k tt (emit [] page_top (ensure_history s)).
Proof.
  unfold st_markdown, st_info, st_write.
  rewrite !bind_render, bind_init_history, !bind_render.
  rewrite !ensure_history_emit, !emit_emit. reflexivity.
Qed.

Lemma front_end_no_question (db : VectorStore) (i : Interaction) (s : Proc) :
  ask_clicked i = false \/ blank (user_query i) ->
  front_end db i s
  = (Ok tt,
     emit []
       (page_top
        ++ (if ask_clicked i then [ElWarning please_enter] else [])
        ++ flat_map pair_elements (history s)
        ++ page_bottom)
       (ensure_history s)).
Proof.
  intros Hi. unfold front_end.
  rewrite (page_head (fun _ =>
    (if ask_clicked i then ask_handler db (user_query i) else mret tt);;
    history ← read_history;
    for_in history tt show_pair;;
    st_markdown (py "<br><hr>") true;;
    st_markdown footer_html true) s).
  unfold st_markdown at 1 2.
  destruct (ask_clicked i) eqn:Hc.
  - destruct Hi as [Hi|Hi]; [discriminate|].
    unfold ask_handler. rewrite (bool_decide_eq_true_2 _ (strip_blank _ Hi)).
    unfold st_warning. rewrite bind_render, (page_rest (history s)).
    + rewrite !emit_emit. reflexivity.
    + simpl. apply lookup_insert_eq.
  - rewrite bind_ret, (page_rest (history s)).
    + rewrite !emit_emit. reflexivity.
    + simpl. apply lookup_insert_eq.
Qed.

(** A re-run with no question to answer (the button not clicked, or a
    blank query) renders the whole page and returns: the page top, the
    warning if the button was clicked, the history and the page bottom; it
    makes no library call and changes nothing but the creation of the
    history. *)
Theorem front_end_without_question (db : VectorStore) (i : Interaction)
    (s : Proc) :
  ask_clicked i = false \/ blank (user_query i) ->
  front_end db i s
  = (Ok tt,
     emit []
       (page_top
        ++ (if ask_clicked i then [ElWarning please_enter] else [])
        ++ flat_map pair_elements (history s)
        ++ page_bottom)
       (ensure_history s)).
Proof. apply front_end_no_question. Qed.

(** A re-run with a question: the answer generator runs once the page top
    and the spinner are rendered; its answer is rendered above the history
    and the page bottom, and if it raises the re-run ends there, with
    neither history nor page bottom rendered. *)
Theorem front_end_with_question (db : VectorStore) (i : Interaction)
    (s : Proc) :
  ask_clicked i = true ->
  ~ blank (user_query i) ->
  front_end db i s
  = match ask_llm db (user_query i)
            (emit [] (page_top ++ [ElSpinner (py "Generating answer...")])
               (ensure_history s)) with
    | (Ok answer, s1) =>
        (Ok tt,
         emit []
           ([ElMarkdown (py "## " ++ [0x1F9FE] ++ py " Answer") false;
             ElMarkdown (answer_html answer) true]
            ++ flat_map pair_elements (history s) ++ page_bottom) s1)
    | (Raise e, s1) => (Raise e, s1)
    end.
Proof.
  intros Hc Hq. unfold front_end.
  rewrite (page_head (fun _ =>
    (if ask_clicked i then ask_handler db (user_query i) else mret tt);;
    history ← read_history;
    for_in history tt show_pair;;
    st_markdown (py "<br><hr>") true;;
    st_markdown footer_html true) s).
  unfold st_markdown at 1 2. rewrite Hc.
  unfold mbind at 1. unfold M_bind at 1. unfold bind at 1.
  rewrite (ask_handler_question db _ _ Hq), emit_emit.
  pose proof (ask_llm_frame db (user_query i)
                (emit ([] ++ []) (page_top ++ [ElSpinner (py "Generating answer...")])
                   (ensure_history s))) as (_ & _ & _ & Hss & _).
  change ([] ++ []) with (@nil Call) in *.
  destruct (ask_llm db (user_query i) _) as [[answer|e] s1]; [|reflexivity].
  simpl in Hss.
  rewrite (page_rest (history s)).
  - rewrite emit_emit. reflexivity.
  - simpl. rewrite Hss. apply lookup_insert_eq.
Qed.

(** ** Startup and the caches *)

Lemma bind_api_key {A} (k : unit -> M A) (s : Proc) :
  (match getenv_GOOGLE_API_KEY with
   | None | Some [] =>
       st_error ([0x274C] ++ py " GOOGLE_API_KEY not found in my.env")
   | Some (_ :: _) => mret tt
   end ≫= k) s
  = k tt (emit [] api_key_elements s).
Proof.
  unfold api_key_elements, st_error.
  destruct getenv_GOOGLE_API_KEY as [[|c key]|].
  - apply bind_render.
  - now rewrite bind_ret, emit_nil.
  - apply bind_render.
Qed.

Lemma docs_cache_emit (cs : list Call) (es : list Element) (s : Proc) :
  docs_cache (emit cs es s) = docs_cache s.
Proof. reflexivity. Qed.

Lemma bind_make_embeddings {A} (k : Embeddings -> M A) (s : Proc) :
  embeddings_init (py "text-embedding-004") = Ok tt ->
  (make_embeddings ≫= k) s = k embeddings s.
Proof. intros H. unfold make_embeddings. now rewrite H. Qed.

(** Startup when the embeddings client cannot be constructed. *)
Lemma startup_no_embeddings (s : Proc) (e : exn) :
  embeddings_init (py "text-embedding-004") = Raise e ->
  startup s
  = (Raise e,
     emit []
       ([ElPageConfig (py "Indian Customs RAG Assistant") (py "wide")
           [0x1F4E6]]
        ++ api_key_elements) s).
Proof.
  intros H. unfold startup. rewrite bind_render, bind_api_key.
  unfold make_embeddings. rewrite H, emit_emit. reflexivity.
Qed.

(** Startup when the documents are cached: nothing is loaded again. *)
Lemma startup_warm (s : Proc) (d : list Document) :
  embeddings_init (py "text-embedding-004") = Ok tt ->
  docs_cache s = Some d ->
  startup s
  = (Ok d,
     emit []
       ([ElPageConfig (py "Indian Customs RAG Assistant") (py "wide")
           [0x1F4E6]]
        ++ api_key_elements ++ [ElWrite (loaded_message d)]) s).
Proof.
  intros Hemb Hd. unfold startup. rewrite bind_render, bind_api_key.
  rewrite (bind_make_embeddings _ _ Hemb).
  unfold st_cache_data, st_write.
  unfold mbind at 1. unfold M_bind at 1. unfold bind at 1.
  rewrite bind_get, !docs_cache_emit, Hd.
  unfold mret at 1. unfold M_ret, ret.
  rewrite bind_render, !emit_emit. reflexivity.
Qed.

(** Startup when the documents are not cached and ingestion completes. *)
Lemma startup_cold (s : Proc) :
  embeddings_init (py "text-embedding-004") = Ok tt ->
  docs_cache s = None -> local_ok (fs s) ->
  startup s
  = (Ok (loaded_docs (fs s)),
     mkProc (fs s) (Some (loaded_docs (fs s))) (vs_cache s)
       (session_state s) (calls s ++ load_calls (fs s))
       (rendered s
        ++ [ElPageConfig (py "Indian Customs RAG Assistant") (py "wide")
              [0x1F4E6]]
        ++ api_key_elements ++ load_warnings (fs s)
        ++ [ElWrite (loaded_message (loaded_docs (fs s)))])).
Proof.
  intros Hemb Hd Hok. unfold startup. rewrite bind_render, bind_api_key.
  rewrite (bind_make_embeddings _ _ Hemb).
  unfold st_cache_data, st_write.
  unfold mbind at 1. unfold M_bind at 1. unfold bind at 1.
  rewrite bind_get, !docs_cache_emit, Hd.
  unfold mbind at 1. unfold M_bind at 1. unfold bind at 1.
  rewrite load_all_documents_ok by exact Hok.
  rewrite !emit_emit. unfold mbind, M_bind, bind, set_docs_cache, mret,
    M_ret, ret, render, emit.
  cbn [fs docs_cache vs_cache session_state calls rendered].
  rewrite <- !app_assoc. reflexivity.
Qed.

(** The key check only reports; the script goes on to line 32.  If
    constructing the embeddings client raises there (as it does when no API
    key is configured), the re-run ends with that exception, caches filled
    or not: after the page configuration and the key banner nothing is
    rendered, no document is loaded, and disk, caches and session are as
    they were. *)
Theorem embeddings_constructor_failure (i : Interaction) (s : Proc)
    (e : exn) :
  embeddings_init (py "text-embedding-004") = Raise e ->
  script i s
  = (Raise e,
     emit []
       ([ElPageConfig (py "Indian Customs RAG Assistant") (py "wide")
           [0x1F4E6]]
        ++ match getenv_GOOGLE_API_KEY with
           | Some (_ :: _) => []
           | _ =>
               [ElError
                  ([0x274C] ++ py " GOOGLE_API_KEY not found in my.env")]
           end) s).
Proof.
  intros H. unfold script.
  unfold mbind at 1. unfold M_bind at 1. unfold bind at 1.
  now rewrite (startup_no_embeddings s e H).
Qed.

#[local] Instance only_output_preorder : PreOrder only_output.
Proof.
  split; [intros s; repeat split|].
  intros s1 s2 s3 (A1 & B1 & C1 & D1) (A2 & B2 & C2 & D2).
  repeat split; congruence.
Qed.

#[local] Instance ingested_preorder : PreOrder ingested.
Proof.
  split; [intros s; repeat split|].
  intros s1 s2 s3 (A1 & B1) (A2 & B2). split; congruence.
Qed.

#[local] Instance stored_preorder : PreOrder stored.
Proof.
  split; [intros s; repeat split|].
  intros s1 s2 s3 (A1 & B1 & C1) (A2 & B2 & C2). repeat split; congruence.
Qed.

Lemma log_call_only_output c : preserves only_output (log_call c).
Proof. intros s. repeat split. Qed.

Lemma render_only_output e : preserves only_output (render e).
Proof. intros s. repeat split. Qed.

(** Ingestion reads and reports: whether it returns or raises, it leaves
    the disk, both caches and the session state as they were. *)
Theorem load_all_documents_only_output (s : Proc) :
  fs (snd (load_all_documents s)) = fs s
  /\ docs_cache (snd (load_all_documents s)) = docs_cache s
  /\ vs_cache (snd (load_all_documents s)) = vs_cache s
  /\ session_state (snd (load_all_documents s)) = session_state s.
Proof.
  assert (H : preserves only_output load_all_documents).
  { unfold load_all_documents, load_pdf, load_csv, load_url, os_path_exists,
      st_warning.
    repeat first
      [apply log_call_only_output|apply render_only_output|preserves_step]. }
  exact (H s).
Qed.

Lemma log_call_ingested c :
  is_loader_call c = false -> preserves ingested (log_call c).
Proof.
  intros Hc s. unfold ingested. simpl.
  rewrite List.filter_app. simpl. rewrite Hc. now rewrite app_nil_r.
Qed.

Lemma render_ingested e : preserves ingested (render e).
Proof. intros s. repeat split. Qed.

Lemma set_fs_ingested f : preserves ingested (set_fs f).
Proof. intros s. repeat split. Qed.

Lemma set_vs_cache_ingested db : preserves ingested (set_vs_cache db).
Proof. intros s. repeat split. Qed.

Lemma set_session_ingested f : preserves ingested (set_session f).
Proof. intros s. repeat split. Qed.

(** What the script does after startup calls no loader. *)
Lemma after_startup_ingested (d : list Document) (i : Interaction) :
  preserves ingested
    (db ← st_cache_resource (get_vectorstore d); front_end db i).
Proof.
  unfold st_cache_resource, get_vectorstore, front_end, init_history,
    ask_handler, ask_llm, read_history, show_pair, os_path_exists,
    st_warning, st_error, st_write, st_markdown, st_info.
  repeat first
    [ apply log_call_ingested; reflexivity | apply render_ingested
    | apply set_fs_ingested | apply set_vs_cache_ingested
    | apply set_session_ingested | preserves_step ].
Qed.

Lemma script_ingested (i : Interaction) (s : Proc) :
  is_Some (docs_cache s) -> ingested s (snd (script i s)).
Proof.
  intros [d Hd]. unfold script.
  unfold mbind at 1. unfold M_bind at 1. unfold bind at 1.
  destruct (embeddings_init (py "text-embedding-004")) as [[]|e] eqn:Hemb.
  - rewrite (startup_warm s d Hemb Hd).
    match goal with
    | |- ingested s (snd (?m ?t)) =>
        transitivity t; [repeat split|apply (after_startup_ingested d i t)]
    end.
    simpl. now rewrite app_nil_r.
  - rewrite (startup_no_embeddings s e Hemb). repeat split.
    simpl. now rewrite app_nil_r.
Qed.

Lemma run_ingested (inputs : list Interaction) : forall s,
  is_Some (docs_cache s) -> ingested s (run inputs s).
Proof.
  induction inputs as [|i inputs IH]; intros s Hs; simpl; [reflexivity|].
  pose proof (script_ingested i s Hs) as Hq.
  transitivity (snd (script i s)); [exact Hq|].
  apply IH. destruct Hq as [-> _]. exact Hs.
Qed.

Lemma load_calls_loader (F : gset str) :
  List.filter is_loader_call (load_calls F) = load_calls F.
Proof.
  assert (H : Forall (fun c => is_loader_call c = true) (load_calls F)).
  { unfold load_calls. rewrite !Forall_app. repeat split;
      apply Forall_forall; intros c Hc;
      apply list_elem_of_In, in_map_iff in Hc as [x [<- _]]; reflexivity. }
  induction H as [|c l Hc _ IH]; simpl; [reflexivity|].
  now rewrite Hc, IH.
Qed.

(** When ingestion is reached (the embeddings client is constructed) and
    completes on the first run of a process, its documents
    are cached and the loaders are never called again: over any number of
    re-runs the loader calls are those of that one ingestion. *)
Theorem loaders_called_once (i : Interaction) (inputs : list Interaction)
    (f : gset str) :
  embeddings_init (py "text-embedding-004") = Ok tt ->
  local_ok f ->
  docs_cache (run (i :: inputs) (fresh f)) = Some (loaded_docs f)
  /\ List.filter is_loader_call (calls (run (i :: inputs) (fresh f)))
     = load_calls f.
Proof.
  intros Hemb Hok. simpl run.
  assert (H1 : ingested
                 (mkProc f (Some (loaded_docs f)) None ∅ (load_calls f) [])
                 (snd (script i (fresh f)))).
  { unfold script.
    unfold mbind at 1. unfold M_bind at 1. unfold bind at 1.
    rewrite (startup_cold (fresh f)) by (auto; reflexivity).
    match goal with
    | |- ingested _ (snd (?m ?t)) =>
        transitivity t;
          [repeat split|apply (after_startup_ingested (loaded_docs f) i t)]
    end. }
  destruct H1 as [D1 C1]. simpl in D1, C1.
  destruct (run_ingested inputs (snd (script i (fresh f)))) as [D2 C2];
    [rewrite D1; eauto|].
  rewrite D2, C2, D1, C1. split; [reflexivity|apply load_calls_loader].
Qed.

Lemma log_call_stored c :
  is_store_call c = false -> preserves stored (log_call c).
Proof.
  intros Hc s. unfold stored. simpl.
  rewrite List.filter_app. simpl. rewrite Hc. now rewrite app_nil_r.
Qed.

Lemma render_stored e : preserves stored (render e).
Proof. intros s. repeat split. Qed.

Lemma set_docs_cache_stored d : preserves stored (set_docs_cache d).
Proof. intros s. repeat split. Qed.

Lemma set_session_stored f : preserves stored (set_session f).
Proof. intros s. repeat split. Qed.

Ltac stored_tac :=
  repeat first
    [ apply log_call_stored; reflexivity | apply render_stored
    | apply set_docs_cache_stored | apply set_session_stored
    | preserves_step ].

Lemma startup_stored : preserves stored startup.
Proof.
  unfold startup, make_embeddings, st_cache_data, load_all_documents, load_pdf, load_csv,
    load_url, os_path_exists, st_warning, st_error, st_write.
  stored_tac.
Qed.

Lemma front_end_stored db i : preserves stored (front_end db i).
Proof.
  unfold front_end, init_history, ask_handler, ask_llm, read_history,
    show_pair, st_warning, st_error, st_write, st_markdown, st_info.
  stored_tac.
Qed.

Lemma bind_cache_hit {A} (f : M VectorStore) (k : VectorStore -> M A)
    (s : Proc) (db : VectorStore) :
  vs_cache s = Some db -> (st_cache_resource f ≫= k) s = k db s.
Proof.
  intros Hdb. unfold st_cache_resource.
  unfold mbind at 1. unfold M_bind at 1. unfold bind at 1.
  rewrite bind_get, Hdb. reflexivity.
Qed.

Lemma script_stored (i : Interaction) (s : Proc) :
  is_Some (vs_cache s) -> stored s (snd (script i s)).
Proof.
  intros [db Hdb]. unfold script.
  unfold mbind at 1. unfold M_bind at 1. unfold bind at 1.
  pose proof (startup_stored s) as H1.
  destruct (startup s) as [[docs|e] s1]; simpl in H1; [|exact H1].
  assert (Hdb1 : vs_cache s1 = Some db) by (destruct H1; congruence).
  rewrite (bind_cache_hit _ _ s1 db Hdb1).
  transitivity s1; [exact H1|]. apply (front_end_stored db i s1).
Qed.

(** Once a vector store is cached it is the store of every later re-run:
    the cache keeps it, and the script never again splits documents nor
    opens, builds or persists a store, nor changes the disk. *)
Theorem store_cached_for_good (inputs : list Interaction) (s : Proc)
    (db : VectorStore) :
  vs_cache s = Some db ->
  vs_cache (run inputs s) = Some db
  /\ fs (run inputs s) = fs s
  /\ List.filter is_store_call (calls (run inputs s))
     = List.filter is_store_call (calls s).
Proof.
  revert s. induction inputs as [|i inputs IH]; intros s Hdb; simpl.
  - auto.
  - destruct (script_stored i s) as (A & B & C); [rewrite Hdb; eauto|].
    destruct (IH (snd (script i s))) as (A' & B' & C'); [congruence|].
    repeat split; congruence.
Qed.

(** With both caches filled (and the embeddings client, made anew on each
    re-run, constructed), a re-run that has no question to answer (the
    button not clicked, or a blank query) returns normally and calls no
    library at all: the page is redrawn from the caches alone. *)
Theorem idle_rerun_free (i : Interaction) (s : Proc) (d : list Document)
    (db : VectorStore) :
  embeddings_init (py "text-embedding-004") = Ok tt ->
  docs_cache s = Some d ->
  vs_cache s = Some db ->
  ask_clicked i = false \/ blank (user_query i) ->
  fst (script i s) = Ok tt
  /\ calls (snd (script i s)) = calls s
  /\ fs (snd (script i s)) = fs s
  /\ docs_cache (snd (script i s)) = Some d
  /\ vs_cache (snd (script i s)) = Some db
  /\ history (snd (script i s)) = history s.
Proof.
  intros Hemb Hd Hdb Hi.
  assert (Hrun : exists es, script i s = (Ok tt, emit [] es (ensure_history s))).
  { unfold script.
    unfold mbind at 1. unfold M_bind at 1. unfold bind at 1.
    rewrite (startup_warm s d Hemb Hd).
    rewrite (bind_cache_hit _ _ _ db) by exact Hdb.
    rewrite (front_end_no_question db i _ Hi).
    rewrite ensure_history_emit, emit_emit. eauto. }
  destruct Hrun as [es ->].
  cbn [fst snd emit calls fs docs_cache vs_cache ensure_history].
  repeat split; auto.
  - now rewrite app_nil_r.
  - apply history_ensure.
Qed.

(** Startup when a local file fails to parse. *)
Lemma startup_raises (s : Proc) (p : str) (e : exn) :
  docs_cache s = None -> local_failure (fs s) p e ->
  exists e' cs es, startup s = (Raise e', emit cs es s).
Proof.
  intros Hd Hfail.
  destruct (embeddings_init (py "text-embedding-004")) as [[]|e0] eqn:Hemb.
  2:{ rewrite (startup_no_embeddings s e0 Hemb). eauto. }
  unfold startup. rewrite bind_render, bind_api_key.
  rewrite (bind_make_embeddings _ _ Hemb).
  unfold st_cache_data.
  unfold mbind at 1. unfold M_bind at 1. unfold bind at 1.
  rewrite bind_get, !docs_cache_emit, Hd.
  unfold mbind at 1. unfold M_bind at 1. unfold bind at 1.
  match goal with
  | |- context [load_all_documents ?t] =>
      destruct (load_all_documents_raises t p e Hfail)
        as (p' & e' & cs & es & Hlf & Hrun & _)
  end.
  rewrite Hrun, !emit_emit. eauto 10.
Qed.

(** A configured file that exists and does not parse blocks the
    application: every re-run raises during ingestion, so no run ever caches
    documents, reaches the vector store or creates the session history, and
    the next re-run fails the same way. *)
Theorem corrupt_file_blocks (f : gset str) (p : str) (e : exn)
    (inputs : list Interaction) (i : Interaction) :
  local_failure f p e ->
  docs_cache (run inputs (fresh f)) = None
  /\ vs_cache (run inputs (fresh f)) = None
  /\ session_state (run inputs (fresh f)) = ∅
  /\ fs (run inputs (fresh f)) = f
  /\ List.filter is_store_call (calls (run inputs (fresh f))) = []
  /\ exists e', fst (script i (run inputs (fresh f))) = Raise e'.
Proof.
  intros Hfail.
  assert (Hstep : forall j s,
    docs_cache s = None -> fs s = f ->
    exists e' cs es, script j s = (Raise e', emit cs es s)
      /\ List.filter is_store_call (calls (emit cs es s))
         = List.filter is_store_call (calls s)).
  { intros j s Hd Hf.
    destruct (startup_raises s p e Hd) as (e' & cs & es & Hst);
      [now rewrite Hf|].
    pose proof (startup_stored s) as (_ & _ & Hc). rewrite Hst in Hc.
    exists e', cs, es. split; [|exact Hc].
    unfold script. unfold mbind at 1. unfold M_bind at 1. unfold bind at 1.
    now rewrite Hst. }
  assert (Hinv : forall l s,
    docs_cache s = None -> fs s = f ->
    docs_cache (run l s) = None /\ vs_cache (run l s) = vs_cache s
    /\ session_state (run l s) = session_state s /\ fs (run l s) = f
    /\ List.filter is_store_call (calls (run l s))
       = List.filter is_store_call (calls s)).
  { induction l as [|j l IH]; intros s Hd Hf; simpl; [auto|].
    destruct (Hstep j s Hd Hf) as (e' & cs & es & Hrun & Hc).
    rewrite Hrun. simpl snd.
    destruct (IH (emit cs es s)) as (A & B & C & D & E); auto.
    repeat split; auto. congruence. }
  destruct (Hinv inputs (fresh f)) as (A & B & C & D & E); auto.
  repeat split; auto.
  destruct (Hstep i (run inputs (fresh f)) A D) as (e' & cs & es & Hrun & _).
  exists e'. now rewrite Hrun.
Qed.

(** ** The reopen path *)

#[local] Instance keeps_preorder (ok : Call -> Prop) : PreOrder (keeps ok).
Proof.
  split; [intros s H; exact H|].
  intros s1 s2 s3 H1 H2 H. exact (H2 (H1 H)).
Qed.

Lemma log_call_keeps (ok : Call -> Prop) (c : Call) :
  ok c -> preserves (keeps ok) (log_call c).
Proof.
  intros Hc s H. simpl. apply Forall_app. split; [exact H|].
  constructor; [exact Hc|constructor].
Qed.

Lemma render_keeps ok e : preserves (keeps ok) (render e).
Proof. intros s H. exact H. Qed.

Lemma set_docs_cache_keeps ok d : preserves (keeps ok) (set_docs_cache d).
Proof. intros s H. exact H. Qed.

Lemma set_session_keeps ok f : preserves (keeps ok) (set_session f).
Proof. intros s H. exact H. Qed.

Lemma startup_keeps (ok : Call -> Prop) :
  (forall c, is_loader_call c = true -> ok c) ->
  preserves (keeps ok) startup.
Proof.
  intros Hl.
  unfold startup, make_embeddings, st_cache_data, load_all_documents,
    load_pdf, load_csv, load_url, os_path_exists, st_warning, st_error,
    st_write.
  repeat first
    [ apply log_call_keeps; apply Hl; reflexivity | apply render_keeps
    | apply set_docs_cache_keeps | preserves_step ].
Qed.

Lemma front_end_keeps (ok : Call -> Prop) (db : VectorStore)
    (i : Interaction) :
  (forall k q, ok (CallRetrieve db k q)) ->
  (forall l p, ok (CallLLM l p)) ->
  preserves (keeps ok) (front_end db i).
Proof.
  intros Hr Hl.
  unfold front_end, init_history, ask_handler, ask_llm, read_history,
    show_pair, st_warning, st_error, st_write, st_markdown, st_info.
  repeat first
    [ apply log_call_keeps; first [apply Hr|apply Hl] | apply render_keeps
    | apply set_session_keeps | preserves_step ].
Qed.

(** [get_vectorstore], not cached yet, when [DB_DIR] exists. *)
Lemma vectorstore_reopen (docs : list Document) (s : Proc) :
  DB_DIR ∈ fs s -> vs_cache s = None ->
  st_cache_resource (get_vectorstore docs) s
  = match chroma_open embeddings DB_DIR with
    | Ok db =>
        (Ok db, with_store db (emit [CallChromaOpen embeddings DB_DIR] [] s))
    | Raise e => (Raise e, emit [CallChromaOpen embeddings DB_DIR] [] s)
    end.
Proof.
  intros Hdir Hvs. unfold st_cache_resource, get_vectorstore.
  run_monad. rewrite Hvs. simpl. rewrite (bool_decide_eq_true_2 _ Hdir).
  destruct (chroma_open embeddings DB_DIR); simpl;
    unfold with_store, emit; simpl; now rewrite app_nil_r.
Qed.

Lemma script_opens_only (i : Interaction) (s : Proc) :
  DB_DIR ∈ fs s -> keeps opens_only s (snd (script i s)).
Proof.
  intros Hdir. unfold script.
  unfold mbind at 1. unfold M_bind at 1. unfold bind at 1.
  assert (H1 : keeps opens_only s (snd (startup s))).
  { apply startup_keeps. intros c Hc Hs. destruct c; discriminate. }
  pose proof (startup_quiet s) as [(Hfs & _) Hvs].
  destruct (startup s) as [[docs|e] s1]; simpl in H1, Hfs, Hvs; [|exact H1].
  transitivity s1; [exact H1|].
  assert (Hfe : forall db t, keeps opens_only t (snd (front_end db i t))).
  { intros db t. apply front_end_keeps; intros ? ? Hs; discriminate. }
  destruct (vs_cache s1) as [db|] eqn:Hc1.
  - rewrite (bind_cache_hit _ _ s1 db Hc1). apply Hfe.
  - unfold mbind at 1. unfold M_bind at 1. unfold bind at 1.
    rewrite vectorstore_reopen by (rewrite ?Hfs; auto).
    assert (Hopen : keeps opens_only s1
                      (emit [CallChromaOpen embeddings DB_DIR] [] s1)).
    { intros H. simpl. apply Forall_app. split; [exact H|].
      constructor; [intros _; reflexivity|constructor]. }
    destruct (chroma_open embeddings DB_DIR) as [db|e]; [|exact Hopen].
    transitivity (with_store db (emit [CallChromaOpen embeddings DB_DIR] []
                                   s1)); [exact Hopen|apply Hfe].
Qed.

Lemma run_opens_only (inputs : list Interaction) : forall s,
  DB_DIR ∈ fs s -> reopened s -> keeps opens_only s (run inputs s).
Proof.
  induction inputs as [|i inputs IH]; intros s Hdir Hre; simpl;
    [reflexivity|].
  destruct (script_reopen i s Hdir Hre) as [(Hfs & _) Hre'].
  transitivity (snd (script i s)); [now apply script_opens_only|].
  apply IH; [now rewrite Hfs|exact Hre'].
Qed.

Lemma run_stored (inputs : list Interaction) : forall s,
  is_Some (vs_cache s) -> stored s (run inputs s).
Proof.
  induction inputs as [|i inputs IH]; intros s Hs; simpl; [reflexivity|].
  pose proof (script_stored i s Hs) as Hq.
  transitivity (snd (script i s)); [exact Hq|].
  apply IH. destruct Hq as [-> _]. exact Hs.
Qed.

Lemma script_retrieval_on (i : Interaction) (s : Proc) (db : VectorStore) :
  vs_cache s = Some db -> keeps (retrieval_on db) s (snd (script i s)).
Proof.
  intros Hdb. unfold script.
  unfold mbind at 1. unfold M_bind at 1. unfold bind at 1.
  assert (H1 : keeps (retrieval_on db) s (snd (startup s))).
  { apply startup_keeps. intros c Hc. destruct c; try discriminate; exact I. }
  pose proof (startup_quiet s) as [_ Hvs].
  destruct (startup s) as [[docs|e] s1]; simpl in H1, Hvs; [|exact H1].
  transitivity s1; [exact H1|].
  rewrite (bind_cache_hit _ _ s1 db) by congruence.
  apply front_end_keeps; intros; [reflexivity|exact I].
Qed.

Lemma run_retrieval_on (inputs : list Interaction) : forall s db,
  vs_cache s = Some db -> keeps (retrieval_on db) s (run inputs s).
Proof.
  induction inputs as [|i inputs IH]; intros s db Hdb; simpl; [reflexivity|].
  transitivity (snd (script i s)); [now apply script_retrieval_on|].
  apply IH. destruct (script_stored i s) as [-> _]; [rewrite Hdb; eauto|].
  exact Hdb.
Qed.

(** The first run of a fresh process when [DB_DIR] exists and the store
    opens. *)
Lemma script_first_open (i : Interaction) (f : gset str) (db : VectorStore) :
  embeddings_init (py "text-embedding-004") = Ok tt ->
  DB_DIR ∈ f -> local_ok f ->
  chroma_open embeddings DB_DIR = Ok db ->
  vs_cache (snd (script i (fresh f))) = Some db
  /\ List.filter is_store_call (calls (snd (script i (fresh f))))
     = [CallChromaOpen embeddings DB_DIR]
  /\ Forall (retrieval_on db) (calls (snd (script i (fresh f)))).
Proof.
  intros Hemb Hdir Hok Hopen.
  pose proof (startup_stored (fresh f)) as (_ & _ & Hst).
  assert (Hk : keeps (retrieval_on db) (fresh f) (snd (startup (fresh f)))).
  { apply startup_keeps. intros c Hc. destruct c; try discriminate; exact I. }
  specialize (Hk ltac:(constructor)).
  assert (Hrun : exists t,
    script i (fresh f) = front_end db i t
    /\ vs_cache t = Some db
    /\ calls t = calls (snd (startup (fresh f)))
                 ++ [CallChromaOpen embeddings DB_DIR]).
  { unfold script.
    unfold mbind at 1. unfold M_bind at 1. unfold bind at 1.
    rewrite (startup_cold (fresh f) Hemb eq_refl Hok).
    unfold mbind at 1. unfold M_bind at 1. unfold bind at 1.
    rewrite vectorstore_reopen by (auto; reflexivity).
    rewrite Hopen. eexists. split; [reflexivity|]. split; reflexivity. }
  destruct Hrun as (t & -> & Vt & Ct).
  pose proof (front_end_stored db i t) as (A & _ & C).
  pose proof (front_end_keeps (retrieval_on db) db i
                (fun _ _ => eq_refl) (fun _ _ => I) t) as D.
  rewrite A, C, Vt, Ct, List.filter_app, Hst. simpl.
  repeat split; auto.
  apply D. rewrite Ct. apply Forall_app. split; [exact Hk|].
  constructor; [exact I|constructor].
Qed.

Lemma embedding_calls_without_build (l : list Call) :
  List.filter is_build_call l = [] ->
  List.filter is_embedding_call l = List.filter is_retrieve_call l.
Proof.
  induction l as [|c l IH]; simpl; [reflexivity|].
  destruct c; simpl; intros H; try discriminate; rewrite ?IH; auto.
Qed.

Lemma opens_only_filter (l : list Call) :
  Forall opens_only l ->
  Forall (fun c => c = CallChromaOpen embeddings DB_DIR)
    (List.filter is_store_call l).
Proof.
  induction 1 as [|c l Hc _ IH]; simpl; [constructor|].
  destruct (is_store_call c) eqn:Hs; [|exact IH].
  constructor; [exact (Hc Hs)|exact IH].
Qed.

(** C4, as amended. When [DB_DIR] exists before the process starts, then
    through any number of re-runs of the script the text splitter is never
    called and no chunk is embedded (no build call, [Chroma.from_documents],
    is made): the only calls that run the embedding function are the
    retrievals of the questions asked, which embed the query.  The index is
    reopened as it is: the only store calls are openings of [DB_DIR], the
    directory is unchanged, and a cached store is the one opened from
    [DB_DIR].  When moreover the script gets that far and the store opens
    (the embeddings client is constructed, ingestion completes, the open
    succeeds, at least one re-run), the store is opened exactly once, it is
    cached, and every retrieval is made on it. *)
Theorem reopen_path (inputs : list Interaction) (f : gset str) :
  DB_DIR ∈ f ->
  List.filter is_split_call (calls (run inputs (fresh f))) = []
  /\ List.filter is_build_call (calls (run inputs (fresh f))) = []
  /\ List.filter is_embedding_call (calls (run inputs (fresh f)))
     = List.filter is_retrieve_call (calls (run inputs (fresh f)))
  /\ Forall (fun c => c = CallChromaOpen embeddings DB_DIR)
       (List.filter is_store_call (calls (run inputs (fresh f))))
  /\ fs (run inputs (fresh f)) = f
  /\ (vs_cache (run inputs (fresh f)) = None
      \/ exists db, vs_cache (run inputs (fresh f)) = Some db
                    /\ chroma_open embeddings DB_DIR = Ok db)
  /\ (forall db,
        inputs <> [] ->
        embeddings_init (py "text-embedding-004") = Ok tt ->
        local_ok f ->
        chroma_open embeddings DB_DIR = Ok db ->
        List.filter is_store_call (calls (run inputs (fresh f)))
        = [CallChromaOpen embeddings DB_DIR]
        /\ vs_cache (run inputs (fresh f)) = Some db
        /\ Forall (retrieval_on db) (calls (run inputs (fresh f)))).
Proof.
  intros Hdir.
  destruct (run_reopen inputs (fresh f)) as [(A & B & C) Hre];
    [exact Hdir|now left|].
  simpl in A, B, C.
  repeat split; auto.
  - now apply embedding_calls_without_build.
  - apply opens_only_filter.
    apply (run_opens_only inputs (fresh f)); [exact Hdir|now left|].
    constructor.
  - destruct inputs as [|i inputs]; [congruence|]. simpl run.
    destruct (script_first_open i f db) as (V & S & R); auto.
    destruct (run_stored inputs (snd (script i (fresh f)))) as (_ & _ & S');
      [rewrite V; eauto|].
    now rewrite S'.
  - destruct inputs as [|i inputs]; [congruence|]. simpl run.
    destruct (script_first_open i f db) as (V & S & R); auto.
    destruct (run_stored inputs (snd (script i (fresh f)))) as (V' & _);
      [rewrite V; eauto|].
    now rewrite V'.
  - destruct inputs as [|i inputs]; [congruence|]. simpl run.
    destruct (script_first_open i f db) as (V & S & R); auto.
    now apply (run_retrieval_on inputs _ db V).
Qed.

End Script.


(** ** The script on the concrete library *)

(** The failing input of C1: one non-empty question is answered, the answer
    is rendered, and the history is still empty. *)
Example answered_not_recorded :
  fst (@script Demo.lib Config.PDF_FILES Config.CSV_FILES Config.URLS
         Config.DB_DIR Session.laptop (@fresh Demo.lib Session.indexed))
  = Ok tt
  /\ List.last (rendered
       (@run Demo.lib Config.PDF_FILES Config.CSV_FILES Config.URLS
          Config.DB_DIR [Session.laptop] (@fresh Demo.lib Session.indexed))) (ElButton [])
     = ElMarkdown (footer_html) true
  /\ List.In (ElMarkdown (answer_html (content Demo.reply)) true)
       (rendered
       (@run Demo.lib Config.PDF_FILES Config.CSV_FILES Config.URLS
          Config.DB_DIR [Session.laptop] (@fresh Demo.lib Session.indexed)))
  /\ @history Demo.lib
       (@run Demo.lib Config.PDF_FILES Config.CSV_FILES Config.URLS
          Config.DB_DIR [Session.laptop] (@fresh Demo.lib Session.indexed)) = []
  /\ @history Demo.lib
       (@run Demo.lib Config.PDF_FILES Config.CSV_FILES Config.URLS
          Config.DB_DIR [Session.laptop] (@fresh Demo.lib Session.indexed))
     <> [(py "laptop duty", content Demo.reply)].
Proof.
  split; [vm_compute; reflexivity|].
  split; [vm_compute; reflexivity|].
  split; [|split; [vm_compute; reflexivity|vm_compute; discriminate]].
  vm_compute. repeat (try (left; reflexivity); right).
Qed.

Lemma ask_llm_no_results_witness :
  fst (@ask_llm Demo.lib [Demo.page1] (py "weather") (@fresh Demo.lib ∅))
  = Ok no_relevant_documents.
Proof.
  apply (@ask_llm_no_results Demo.lib [Demo.page1] (py "weather")
           (@fresh Demo.lib ∅)).
  reflexivity.
Defined.

Lemma ask_llm_with_results_witness :
  fst (@ask_llm Demo.lib [Demo.page1; Demo.page2] (py "laptop duty")
         (@fresh Demo.lib ∅))
  = Ok (content Demo.reply).
Proof.
  apply (@ask_llm_with_results Demo.lib [Demo.page1; Demo.page2]
           (py "laptop duty") (@fresh Demo.lib ∅) [Demo.page1; Demo.page2]).
  - reflexivity.
  - discriminate.
Defined.

Lemma ask_handler_blank_witness :
  rendered (snd (@ask_handler Demo.lib [Demo.page1] [32; 9; 0x3000]
                   (@fresh Demo.lib ∅)))
  = [ElWarning please_enter].
Proof.
  apply (@ask_handler_blank Demo.lib [Demo.page1] [32; 9; 0x3000]
           (@fresh Demo.lib ∅)).
  repeat constructor.
Defined.

(** On the concrete library nothing that exists fails to parse, unless it is
    [broken.pdf]. *)
Lemma demo_local_ok (f : gset str) :
  @local_ok Demo.lib Config.PDF_FILES Config.CSV_FILES f.
Proof.
  intros p e [(H1 & _ & H3)|(_ & _ & H3)].
  - apply list_elem_of_singleton in H1. subst p. vm_compute in H3.
    discriminate.
  - discriminate.
Defined.

(** C4 as stated does not hold: with the index directory on disk, answering
    one question makes an embedding call, the retrieval that embeds the
    query. *)
Lemma reopen_path_embeds_query :
  Config.DB_DIR ∈ Session.indexed
  /\ List.filter is_embedding_call
       (calls
          (@run Demo.lib Config.PDF_FILES Config.CSV_FILES Config.URLS
          Config.DB_DIR [Session.laptop] (@fresh Demo.lib Session.indexed)))
     = [@CallRetrieve Demo.lib [Demo.page1] 5 (py "laptop duty")]
  /\ List.filter is_embedding_call
       (calls
          (@run Demo.lib Config.PDF_FILES Config.CSV_FILES Config.URLS
          Config.DB_DIR [Session.laptop] (@fresh Demo.lib Session.indexed)))
     <> [].
Proof.
  split; [apply elem_of_singleton; reflexivity|].
  split; [vm_compute; reflexivity|vm_compute; discriminate].
Qed.

Lemma reopen_path_witness :
  List.filter is_store_call
    (calls
       (@run Demo.lib Config.PDF_FILES Config.CSV_FILES Config.URLS
          Config.DB_DIR [Session.laptop] (@fresh Demo.lib Session.indexed)))
  = [@CallChromaOpen Demo.lib embeddings Config.DB_DIR]
  /\ vs_cache
       (@run Demo.lib Config.PDF_FILES Config.CSV_FILES Config.URLS
          Config.DB_DIR [Session.laptop] (@fresh Demo.lib Session.indexed))
     = Some [Demo.page1].
Proof.
  destruct (@reopen_path Demo.lib Config.PDF_FILES Config.CSV_FILES
              Config.URLS Config.DB_DIR [Session.laptop] Session.indexed)
    as (_ & _ & _ & _ & _ & _ & H).
  - apply elem_of_singleton. reflexivity.
  - destruct (H [Demo.page1]) as (S & V & _).
    + discriminate.
    + reflexivity.
    + apply demo_local_ok.
    + reflexivity.
    + split; [exact S|exact V].
Defined.

Lemma build_path_witness :
  Config.DB_DIR
  ∈ fs (@run Demo.lib Config.PDF_FILES Config.CSV_FILES Config.URLS
          Config.DB_DIR [Session.laptop; Session.idle] (@fresh Demo.lib ∅)).
Proof.
  refine (proj1 (proj2 (proj2
    (@build_path Demo.lib Config.PDF_FILES Config.CSV_FILES Config.URLS
       Config.DB_DIR Session.laptop [Session.idle] ∅
       (split_documents 1000 200
          (@loaded_docs Demo.lib Config.PDF_FILES Config.CSV_FILES
             Config.URLS ∅)) _ _ _ _ _ _)))).
  - apply not_elem_of_empty.
  - reflexivity.
  - apply demo_local_ok.
  - reflexivity.
  - reflexivity.
  - intros d db0 F. simpl. apply elem_of_union_l, elem_of_singleton.
    reflexivity.
Defined.

Lemma load_all_documents_tolerant_witness :
  fst (@load_all_documents Demo.lib Config.PDF_FILES Config.CSV_FILES
         Config.URLS (@fresh Demo.lib Session.csv_only))
  = Ok (@loaded_docs Demo.lib Config.PDF_FILES Config.CSV_FILES Config.URLS
          Session.csv_only).
Proof.
  apply (@load_all_documents_tolerant Demo.lib Config.PDF_FILES
           Config.CSV_FILES Config.URLS (@fresh Demo.lib Session.csv_only)).
  apply demo_local_ok.
Defined.

Lemma load_all_documents_order_witness :
  fst (@load_all_documents Demo.lib Config.PDF_FILES Config.CSV_FILES
         Config.URLS
         (@fresh Demo.lib ({[ py "pdf_c_3_merged.pdf" ]} ∪ Session.csv_only)))
  = Ok [Demo.page1; Demo.page2; Demo.row1; Demo.web1].
Proof.
  rewrite (@load_all_documents_order Demo.lib Config.PDF_FILES
             Config.CSV_FILES Config.URLS
             (@fresh Demo.lib
                ({[ py "pdf_c_3_merged.pdf" ]} ∪ Session.csv_only))).
  - vm_compute. reflexivity.
  - apply demo_local_ok.
Defined.

Lemma load_all_documents_parse_error_witness :
  exists e' s',
    @load_all_documents Demo.lib [py "broken.pdf"] Config.CSV_FILES
      Config.URLS (@fresh Demo.lib {[ py "broken.pdf" ]})
    = (Raise e', s').
Proof.
  destruct (@load_all_documents_parse_error Demo.lib [py "broken.pdf"]
              Config.CSV_FILES Config.URLS
              (@fresh Demo.lib {[ py "broken.pdf" ]}) (py "broken.pdf")
              (mkExn (py "PdfReadError") (py "EOF marker not found")))
    as (p' & e' & cs & es & _ & Hrun & _).
  - left. split; [apply list_elem_of_here|].
    split; [apply elem_of_singleton; reflexivity|reflexivity].
  - exists e'. eexists. exact Hrun.
Defined.

Lemma nothing_loads_witness :
  fst (@startup Demo.lib Config.PDF_FILES Config.CSV_FILES
         [Session.india_briefing] (@fresh Demo.lib ∅))
  = Ok [].
Proof.
  refine (proj1 (proj2
    (@nothing_loads Demo.lib Config.PDF_FILES Config.CSV_FILES
       [Session.india_briefing] Config.DB_DIR (@fresh Demo.lib ∅) _ _ _) _)).
  - reflexivity.
  - intros p _. apply not_elem_of_empty.
  - intros u Hu. apply list_elem_of_singleton in Hu. subst u. reflexivity.
  - reflexivity.
Defined.

(** ** The further properties on the concrete libraries *)

Lemma ask_llm_retrieval_error_witness :
  fst (@ask_llm Outage.lib [Demo.page1] (py "slow") (@fresh Outage.lib ∅))
  = Raise Outage.timed_out.
Proof.
  rewrite (@ask_llm_retrieval_error Outage.lib [Demo.page1] (py "slow")
             (@fresh Outage.lib ∅) Outage.timed_out); reflexivity.
Defined.

Lemma ask_llm_llm_error_witness :
  fst (@ask_llm Outage.lib [Demo.page1] (py "laptop duty")
         (@fresh Outage.lib ∅))
  = Raise Outage.quota.
Proof.
  rewrite (@ask_llm_llm_error Outage.lib [Demo.page1] (py "laptop duty")
             (@fresh Outage.lib ∅) [Demo.page1] Outage.quota).
  - reflexivity.
  - reflexivity.
  - discriminate.
  - reflexivity.
Defined.

Lemma ask_llm_sends_every_chunk_witness :
  exists p,
    @CallLLM Demo.lib get_llm p
    ∈ calls (snd (@ask_llm Demo.lib [Demo.page1; Demo.page2]
                    (py "laptop duty") (@fresh Demo.lib ∅)))
    /\ contains (page_content Demo.page2) p.
Proof.
  apply (@ask_llm_sends_every_chunk Demo.lib [Demo.page1; Demo.page2]
           (py "laptop duty") (@fresh Demo.lib ∅)
           [Demo.page1; Demo.page2] Demo.page2).
  - reflexivity.
  - apply list_elem_of_further, list_elem_of_here.
Defined.

Lemma ask_handler_nonblank_witness :
  fst (@ask_handler Demo.lib [Demo.page1] (py " laptop")
         (@fresh Demo.lib ∅))
  = Ok tt.
Proof.
  rewrite (@ask_handler_nonblank Demo.lib [Demo.page1] (py " laptop")
             (@fresh Demo.lib ∅)).
  - reflexivity.
  - intros H. apply strip_nil_iff in H. vm_compute in H. discriminate.
Defined.

Lemma vectorstore_ignores_documents_witness :
  @st_cache_resource Demo.lib
    (@get_vectorstore Demo.lib Config.DB_DIR []) (@fresh Demo.lib Session.indexed)
  = @st_cache_resource Demo.lib
      (@get_vectorstore Demo.lib Config.DB_DIR [Demo.row1])
      (@fresh Demo.lib Session.indexed).
Proof.
  apply (@vectorstore_ignores_documents Demo.lib Config.DB_DIR [] [Demo.row1]
           (@fresh Demo.lib Session.indexed)).
  left. apply elem_of_singleton. reflexivity.
Defined.

Lemma open_failure_witness :
  fst (@st_cache_resource Outage.lib
         (@get_vectorstore Outage.lib Config.DB_DIR [Demo.row1])
         (@fresh Outage.lib Session.indexed))
  = Raise Outage.unreachable.
Proof.
  rewrite (@open_failure Outage.lib Config.DB_DIR [Demo.row1]
             (@fresh Outage.lib Session.indexed) Outage.unreachable).
  - reflexivity.
  - apply elem_of_singleton. reflexivity.
  - reflexivity.
  - reflexivity.
Defined.

Lemma build_failure_witness :
  fst (@st_cache_resource Outage.lib
         (@get_vectorstore Outage.lib Config.DB_DIR [Demo.row1])
         (@fresh Outage.lib ∅))
  = Raise Outage.unreachable
  /\ Config.DB_DIR
     ∈ fs (snd (@st_cache_resource Outage.lib
                  (@get_vectorstore Outage.lib Config.DB_DIR [Demo.row1])
                  (@fresh Outage.lib ∅))).
Proof.
  destruct (@build_failure Outage.lib Config.DB_DIR [Demo.row1]
              (@fresh Outage.lib ∅) Outage.unreachable) as [H _].
  - apply not_elem_of_empty.
  - reflexivity.
  - reflexivity.
  - rewrite H. split; [reflexivity|].
    simpl. apply elem_of_union_l, elem_of_singleton. reflexivity.
Defined.

Lemma display_loop_witness :
  rendered
    (snd ((history ← @read_history Demo.lib;
           for_in history tt (@show_pair Demo.lib))
            (@mkProc Demo.lib ∅ None None
               {[ "history"%string := [(py "q1", py "a1"); (py "q2", py "a2")] ]}
               [] [])))
  = pair_elements (py "q1", py "a1") ++ pair_elements (py "q2", py "a2").
Proof.
  rewrite (@display_loop Demo.lib [(py "q1", py "a1"); (py "q2", py "a2")]).
  - reflexivity.
  - apply lookup_singleton_eq.
Defined.

Lemma front_end_without_question_witness :
  fst (@front_end Demo.lib [Demo.page1] Session.idle (@fresh Demo.lib ∅))
  = Ok tt.
Proof.
  rewrite (@front_end_without_question Demo.lib [Demo.page1] Session.idle
             (@fresh Demo.lib ∅)).
  - reflexivity.
  - left. reflexivity.
Defined.

Lemma front_end_with_question_witness :
  fst (@front_end Outage.lib [Demo.page1] Session.laptop (@fresh Outage.lib ∅))
  = Raise Outage.quota.
Proof.
  rewrite (@front_end_with_question Outage.lib [Demo.page1] Session.laptop
             (@fresh Outage.lib ∅)).
  - vm_compute. reflexivity.
  - reflexivity.
  - intros H. apply strip_nil_iff in H. vm_compute in H. discriminate.
Defined.

Lemma embeddings_constructor_failure_witness :
  fst (@script Outage.lib Config.PDF_FILES Config.CSV_FILES Config.URLS
         Config.DB_DIR Session.idle
         (@mkProc Outage.lib ∅ (Some [Demo.row1]) (Some [Demo.page2]) ∅
            [] []))
  = Raise Outage.no_key.
Proof.
  rewrite (@embeddings_constructor_failure Outage.lib Config.PDF_FILES
             Config.CSV_FILES Config.URLS Config.DB_DIR Session.idle
             (@mkProc Outage.lib ∅ (Some [Demo.row1]) (Some [Demo.page2]) ∅
                [] [])
             Outage.no_key); reflexivity.
Defined.

Lemma loaders_called_once_witness :
  List.filter is_loader_call
    (calls (@run Demo.lib Config.PDF_FILES Config.CSV_FILES Config.URLS
              Config.DB_DIR [Session.laptop; Session.idle; Session.laptop]
              (@fresh Demo.lib Session.csv_only)))
  = @load_calls Demo.lib Config.PDF_FILES Config.CSV_FILES Config.URLS
      Session.csv_only.
Proof.
  apply (@loaders_called_once Demo.lib Config.PDF_FILES Config.CSV_FILES
           Config.URLS Config.DB_DIR Session.laptop
           [Session.idle; Session.laptop] Session.csv_only).
  - reflexivity.
  - apply demo_local_ok.
Defined.

Lemma store_cached_for_good_witness :
  vs_cache (@run Demo.lib Config.PDF_FILES Config.CSV_FILES Config.URLS
              Config.DB_DIR [Session.laptop; Session.idle]
              (@mkProc Demo.lib ∅ None (Some [Demo.page2]) ∅ [] []))
  = Some [Demo.page2].
Proof.
  apply (@store_cached_for_good Demo.lib Config.PDF_FILES Config.CSV_FILES
           Config.URLS Config.DB_DIR [Session.laptop; Session.idle]
           (@mkProc Demo.lib ∅ None (Some [Demo.page2]) ∅ [] [])
           [Demo.page2]).
  reflexivity.
Defined.

Lemma idle_rerun_free_witness :
  calls (snd (@script Demo.lib Config.PDF_FILES Config.CSV_FILES Config.URLS
                Config.DB_DIR Session.idle
                (@mkProc Demo.lib ∅ (Some [Demo.row1]) (Some [Demo.page2]) ∅
                   [] [])))
  = [].
Proof.
  apply (@idle_rerun_free Demo.lib Config.PDF_FILES Config.CSV_FILES
           Config.URLS Config.DB_DIR Session.idle
           (@mkProc Demo.lib ∅ (Some [Demo.row1]) (Some [Demo.page2]) ∅ [] [])
           [Demo.row1] [Demo.page2]).
  - reflexivity.
  - reflexivity.
  - reflexivity.
  - left. reflexivity.
Defined.

Lemma corrupt_file_blocks_witness :
  exists e',
    fst (@script Demo.lib [py "broken.pdf"] Config.CSV_FILES Config.URLS
           Config.DB_DIR Session.laptop
           (@run Demo.lib [py "broken.pdf"] Config.CSV_FILES Config.URLS
              Config.DB_DIR [Session.idle] (@fresh Demo.lib {[ py "broken.pdf" ]})))
    = Raise e'.
Proof.
  apply (@corrupt_file_blocks Demo.lib [py "broken.pdf"] Config.CSV_FILES
           Config.URLS Config.DB_DIR {[ py "broken.pdf" ]} (py "broken.pdf")
           (mkExn (py "PdfReadError") (py "EOF marker not found"))
           [Session.idle] Session.laptop).
  left. split; [apply list_elem_of_here|].
  split; [apply elem_of_singleton; reflexivity|reflexivity].
Defined.
